(** * The AList web-API client ([alist/component/client.py])

    A shallow embedding of the three parts of the client that carry
    behaviour of their own: the response validator [check_response], the
    session manager ([login], [base_path], [__setattr__]) and the ranged
    reader ([read_bytes], [read_bytes_range], [read_block]), together with
    the download-URL builder [get_url].

    Python text is modelled as the sequence of its UTF-8 bytes
    ([String.string]); Python integers as [Z]; dictionaries used as maps as
    [gmap]; the mutable client object and the network as an explicit world
    threaded through a state-and-exception monad. *)

From Stdlib Require Import ZArith String Ascii List Bool Lia.
From stdpp Require Import base option strings gmap pretty.

Local Open Scope Z_scope.
Local Open Scope string_scope.

(** ** Python values and built-ins used by the client *)

Module Py.

(** [str.startswith]. *)
Definition startswith (s pre : string) : bool := String.prefix pre s.

(** [str.endswith]: the last [len(suffix)] characters of [s] are [suffix]. *)
Definition endswith (s suffix : string) : bool :=
  let n := String.length s in
  let k := String.length suffix in
  (k <=? n)%nat && String.eqb (String.substring (n - k) k s) suffix.

(** The formatting of an integer inside an f-string, [f"{n}"]. *)
Definition fmt_int (n : Z) : string := pretty n.

(** Truth value of a string: empty strings are falsy. *)
Definition str_truthy (s : string) : bool :=
  match s with EmptyString => false | _ => true end.

(** Decoded JSON documents. *)
#[warnings="-register-all"]
Inductive json :=
| JNull
| JBool (b : bool)
| JInt (n : Z)
| JStr (s : string)
| JList (items : list json)
| JObj (fields : list (string * json)).

(** Scalars that can be assigned to an attribute or passed as a
    one-time code ([int | str] in the annotations). *)
Inductive scalar :=
| SNone
| SBool (b : bool)
| SInt (n : Z)
| SStr (s : string).

(** [str(val)]. *)
Definition str (v : scalar) : string :=
  match v with
  | SNone => "None"
  | SBool true => "True"
  | SBool false => "False"
  | SInt n => fmt_int n
  | SStr s => s
  end.

(** Truth value of a scalar, as tested by [if val:]. *)
Definition truthy (v : scalar) : bool :=
  match v with
  | SNone => false
  | SBool b => b
  | SInt n => negb (n =? 0)%Z
  | SStr s => str_truthy s
  end.

(** [repr] of an attribute name: the name between single quotes
    (attribute names are identifiers, so nothing needs escaping). *)
Definition repr_name (s : string) : string := "'" +:+ s +:+ "'".

(** The [errno] constants the client raises with (Linux numbering). *)
Definition EPERM : Z := 1.
Definition ENOENT : Z := 2.
Definition EIO : Z := 5.
Definition EACCES : Z := 13.
Definition EEXIST : Z := 17.
Definition ENOTDIR : Z := 20.
Definition EINVAL : Z := 22.
Definition ESPIPE : Z := 29.

End Py.

(** ** The response envelope and the validator *)

(** The [{code, message, data}] wrapper every endpoint answers with. *)
Record Envelope := mkEnvelope {
  code : Z;
  message : string;
  data : Py.json;
}.

(** The classes of [OSError] the client raises. *)
Inductive os_error_class :=
| OSError_
| PermissionError
| FileNotFoundError
| NotADirectoryError
| FileExistsError.

(** What an exception is constructed with besides its [errno]. *)
Inductive exc_arg :=
| ArgEnvelope (resp : Envelope)
| ArgText (s : string).

(** The exceptions of the model. *)
Inductive exn :=
| OSError (cls : os_error_class) (errno : Z) (arg : exc_arg)
| TypeError (msg : string)
| NameError (name : string)
| KeyError (key : string)
| AttributeError (name : string)
| TransportError (info : string).

Inductive result (A : Type) :=
| Ok (a : A)
| Raise (e : exn).
Arguments Ok {A} a.
Arguments Raise {A} e.

(** [check_code], the function [check_response] applies to a decoded
    envelope (lines 64-82). *)
Definition check_code (resp : Envelope) : result Envelope :=
  let code := code resp in
  if ((200 <=? code) && (code <? 300))%Z then Ok resp
  else if (code =? 403)%Z then
    Raise (OSError PermissionError Py.EACCES (ArgEnvelope resp))
  else
    let fallthrough := Raise (OSError OSError_ Py.EIO (ArgEnvelope resp)) in
    if (code =? 500)%Z then
      let message := message resp in
      if Py.endswith message "object not found"
         || Py.startswith message "failed get storage: storage not found"
      then Raise (OSError FileNotFoundError Py.ENOENT (ArgEnvelope resp))
      else if Py.endswith message "not a folder"
      then Raise (OSError NotADirectoryError Py.ENOTDIR (ArgEnvelope resp))
      else if Py.endswith message "file exists"
      then Raise (OSError FileExistsError Py.EEXIST (ArgEnvelope resp))
      else if Py.startswith message "failed get "
      then Raise (OSError PermissionError Py.EPERM (ArgEnvelope resp))
      else fallthrough
    else fallthrough.

(** The condition of line 72-73, the first row for code 500 of the failure
    table. *)
Definition says_not_found (message : string) : bool :=
  Py.endswith message "object not found"
  || Py.startswith message "failed get storage: storage not found".

(** What [check_response] can be handed: an envelope, an awaitable that
    resolves to an envelope, or a function producing either. *)
Inductive answer :=
| Plain (resp : Envelope)
| Awaited (resp : Envelope).

Definition check_answer (a : answer) : result Envelope :=
  match a with
  | Plain resp => check_code resp
  | Awaited resp => check_code resp   (* [check_code(await resp)] *)
  end.

(** [check_response] applied to a callable: the wrapper of lines 86-91,
    observed once its result (awaited when it is awaitable) is available. *)
Definition check_response_wrapper {A : Type} (func : A -> answer) (args : A)
  : result Envelope :=
  check_answer (func args).

(** Subscripting a decoded JSON value with a string key, [j[key]]. *)
Definition subscript (j : Py.json) (key : string) : result Py.json :=
  match j with
  | Py.JObj fields =>
      match List.find (fun kv => String.eqb (fst kv) key) fields with
      | Some kv => Ok (snd kv)
      | None => Raise (KeyError key)
      end
  | Py.JNull => Raise (TypeError "'NoneType' object is not subscriptable")
  | Py.JBool _ => Raise (TypeError "'bool' object is not subscriptable")
  | Py.JInt _ => Raise (TypeError "'int' object is not subscriptable")
  | Py.JStr _ => Raise (TypeError "string indices must be integers")
  | Py.JList _ => Raise (TypeError "list indices must be integers or slices, not str")
  end.

(** ** Percent-encoding ([urllib.parse.quote]) and [str.translate] *)

Module Url.

Definition in_string (c : ascii) (s : string) : bool :=
  existsb (Ascii.eqb c) (list_ascii_of_string s).

(** The bytes [quote] never encodes: letters, digits and [_.-~]. *)
Definition always_safe (c : ascii) : bool :=
  let n := nat_of_ascii c in
  ((65 <=? n) && (n <=? 90) || (97 <=? n) && (n <=? 122)
   || (48 <=? n) && (n <=? 57))%nat
  || in_string c "_.-~".

Definition hex_digit (n : nat) : ascii :=
  match n with
  | 0 => "0" | 1 => "1" | 2 => "2" | 3 => "3" | 4 => "4" | 5 => "5"
  | 6 => "6" | 7 => "7" | 8 => "8" | 9 => "9" | 10 => "A" | 11 => "B"
  | 12 => "C" | 13 => "D" | 14 => "E" | _ => "F"
  end%nat%char.

(** ['%{:02X}'.format(b)]. *)
Definition percent (c : ascii) : string :=
  let n := nat_of_ascii c in
  String "%" (String (hex_digit (n / 16)) (String (hex_digit (n mod 16)) "")).

Definition quote_byte (safe : string) (c : ascii) : string :=
  if always_safe c || in_string c safe then String c "" else percent c.

(** [quote(s, safe=safe)] on the UTF-8 bytes of [s]. *)
Fixpoint quote (s : string) (safe : string) : string :=
  match s with
  | EmptyString => EmptyString
  | String c rest => quote_byte safe c +:+ quote rest safe
  end.

(** One character of [path.translate({0x23: "%23", 0x3F: "%3F"})]. *)
Definition translate_char (c : ascii) : string :=
  if Ascii.eqb c "#" then "%23"
  else if Ascii.eqb c "?" then "%3F"
  else String c "".

Fixpoint translate (s : string) : string :=
  match s with
  | EmptyString => EmptyString
  | String c rest => translate_char c +:+ translate rest
  end.

(** The [safe] argument [get_url] passes to [quote]. *)
Definition get_url_safe : string := "@[]:/!$&'()*+,;=".

End Url.

(** ** Requests, responses and the world *)

(** The [parse] argument of the HTTP helper: [None] hands back the
    response object, [False] its raw body, [parse_json] the decoded
    envelope. *)
Inductive parse_mode :=
| ParseNone
| ParseFalse
| ParseTrue
| ParseJson.

(** The keyword arguments callers forward as [**request_kwargs]; the model
    keeps the ones the client reads or overrides. *)
Record Kwargs := mkKwargs {
  kw_method : option string;
  kw_headers : option (gmap string string);
  kw_parse : option parse_mode;
}.

Definition no_kwargs : Kwargs :=
  {| kw_method := None; kw_headers := None; kw_parse := None |}.

(** One call of the HTTP helper, with the session's shared headers as they
    were when the call was made. *)
Record Request := mkRequest {
  rq_url : string;
  rq_method : string;
  rq_async : bool;
  rq_headers : option (gmap string string);
  rq_parse : parse_mode;
  rq_json : option Py.json;
  rq_session_headers : gmap string Py.json;
}.

(** A response object, as handed back under [parse=None]. *)
Record Response := mkResponse {
  resp_headers : list (string * string);
  resp_content : string;
  resp_has_aclose : bool;
}.

(** What a request evaluates to. *)
Inductive value :=
| VBytes (b : string)
| VEnvelope (e : Envelope)
| VResponse (r : Response).

(** What the outside world observes of the client. *)
Inductive event :=
| EvRequest (rq : Request)
| EvClose (r : Response)
| EvAclose (r : Response).

(** The instance dictionary of the client ([self.__dict__]): the fields
    set by [__init__] and the slot [cached_property] fills for
    [base_path]. *)
Record Client := mkClient {
  origin : string;
  username : string;
  password : string;
  otp_code : Py.scalar;
  headers : gmap string Py.json;
  base_path_cache : option Py.json;
}.

(** [ns["username"]], [ns["password"]] and [ns["otp_code"]]. *)
Definition ns_username : Client -> string := username.
Definition ns_password : Client -> string := password.
Definition ns_otp_code : Client -> Py.scalar := otp_code.

Record World := mkWorld {
  client : Client;
  trace : list event;
}.

(** The collaborators outside the client: the HTTP helper (its answer may
    depend on everything that happened before), the SHA-256 digest of
    [hashlib], and the helper the module imports from [http_response]. *)
Class Env := mkEnv {
  httpx_request : list event -> Request -> result value;
  sha256_hexdigest : string -> string;
  get_content_length : value -> option Z;
}.

(** ** The state-and-exception monad

    A computation runs in a world and leaves a world behind, whether it
    returns or raises: what was written to the client or sent over the
    network before an exception stays written and sent. A generator
    function driven by [run_gen_step] is the sequence of the calls it
    yields; in asynchronous mode the model describes the call followed by
    awaiting its result. *)
Definition M (A : Type) : Type := World -> result A * World.

Definition ret {A} (a : A) : M A := fun w => (Ok a, w).
Definition raise {A} (e : exn) : M A := fun w => (Raise e, w).
Definition bind {A B} (m : M A) (k : A -> M B) : M B :=
  fun w =>
    match m w with
    | (Ok a, w') => k a w'
    | (Raise e, w') => (Raise e, w')
    end.
Definition lift {A} (r : result A) : M A := fun w => (r, w).

(** [try: body finally: fin]: [fin] runs in every outcome of [body]; when
    [fin] itself raises, its exception replaces the pending one. *)
Definition finally {A} (body : M A) (fin : M unit) : M A :=
  fun w =>
    let '(r, w1) := body w in
    match fin w1 with
    | (Ok _, w2) => (r, w2)
    | (Raise e, w2) => (Raise e, w2)
    end.

Declare Scope client_scope.
Delimit Scope client_scope with client.
Notation "x <- m ;; k" := (bind m (fun x => k))
  (at level 100, m at next level, right associativity) : client_scope.
Notation "m ;;; k" := (bind m (fun _ => k))
  (at level 100, right associativity) : client_scope.
Local Open Scope client_scope.

Definition get_client : M Client := fun w => (Ok (client w), w).
Definition put_client (c : Client) : M unit :=
  fun w => (Ok tt, {| client := c; trace := trace w |}).
Definition emit (ev : event) : M unit :=
  fun w => (Ok tt, {| client := client w; trace := trace w ++ [ev] |}).

(** The world after the outside has observed [evs] more. *)
Definition after (w : World) (evs : list event) : World :=
  {| client := client w; trace := trace w ++ evs |}.

(** Field updates of the instance dictionary. *)
Definition set_username (s : string) (c : Client) : Client :=
  {| origin := origin c; username := s; password := password c;
     otp_code := otp_code c; headers := headers c;
     base_path_cache := base_path_cache c |}.
Definition set_password (s : string) (c : Client) : Client :=
  {| origin := origin c; username := username c; password := s;
     otp_code := otp_code c; headers := headers c;
     base_path_cache := base_path_cache c |}.
Definition set_otp_code (v : Py.scalar) (c : Client) : Client :=
  {| origin := origin c; username := username c; password := password c;
     otp_code := v; headers := headers c;
     base_path_cache := base_path_cache c |}.
Definition set_headers (h : gmap string Py.json) (c : Client) : Client :=
  {| origin := origin c; username := username c; password := password c;
     otp_code := otp_code c; headers := h;
     base_path_cache := base_path_cache c |}.
Definition set_base_path_cache (b : option Py.json) (c : Client) : Client :=
  {| origin := origin c; username := username c; password := password c;
     otp_code := otp_code c; headers := headers c;
     base_path_cache := b |}.

Definition modify_client (f : Client -> Client) : M unit :=
  c <- get_client ;; put_client (f c).

(** ** The methods of [AlistClient] *)

(** The helper functions a module-level name can be bound to. *)
Definition helper : Type := value -> option Z.

Section Methods.
Context `{E : Env}.

(** The helper names bound in the module's namespace. Of [http_response]
    the module imports [get_content_length] only (line 37), and uses it
    nowhere; no other import or definition of the file binds a helper of
    that kind. *)
Definition module_globals (name : string) : option helper :=
  if String.eqb name "get_content_length" then Some get_content_length
  else None.

(** The request [AlistClient.request] (lines 214-248) hands to the HTTP
    helper when [request=None]: the url is completed with the origin,
    [parse] defaults to [parse_json], and the session carries the shared
    headers. *)
Definition build_request (ns : Client) (url method : string)
    (payload : option Py.json) (async_ : bool) (kw : Kwargs) : Request :=
  let url :=
    if Py.startswith url "http://" || Py.startswith url "https://"
    then url
    else
      let url := if Py.startswith url "/" then url else "/" +:+ url in
      origin ns +:+ url in
  {| rq_url := url;
     rq_method := method;
     rq_async := async_;
     rq_headers := kw_headers kw;
     rq_parse := default ParseJson (kw_parse kw);
     rq_json := payload;
     rq_session_headers := headers ns |}.

(** Handing a request to the HTTP helper: the request is observed by the
    outside world, and the helper's answer is returned or raised. *)
Definition send (rq : Request) : M value :=
  fun w =>
    (httpx_request (trace w) rq,
     {| client := client w; trace := trace w ++ [EvRequest rq] |}).

Definition request (url : string) (method : option string)
    (payload : option Py.json) (async_ : bool) (kw : Kwargs) : M value :=
  match method, kw_method kw with
  | Some _, Some _ =>
      raise (TypeError "request() got multiple values for argument 'method'")
  | Some m, None | None, Some m =>
      ns <- get_client ;; send (build_request ns url m payload async_ kw)
  | None, None =>
      ns <- get_client ;; send (build_request ns url "POST" payload async_ kw)
  end.

Definition auth_login (payload : Py.json) (async_ : bool) (kw : Kwargs)
  : M value :=
  request "/api/auth/login" None (Some payload) async_ kw.

Definition auth_login_hash (payload : Py.json) (async_ : bool) (kw : Kwargs)
  : M value :=
  request "/api/auth/login/hash" None (Some payload) async_ kw.

Definition auth_me (async_ : bool) (kw : Kwargs) : M value :=
  request "/api/me" (Some "GET") None async_ kw.

(** [resp["code"]] and [resp["data"]] on what a request returned. *)
Definition resp_code (resp : value) : result Z :=
  match resp with
  | VEnvelope e => Ok (code e)
  | VBytes _ => Raise (TypeError "byte indices must be integers or slices, not str")
  | VResponse _ => Raise (TypeError "'Response' object is not subscriptable")
  end.

Definition resp_data (resp : value) : result Py.json :=
  match resp with
  | VEnvelope e => Ok (data e)
  | VBytes _ => Raise (TypeError "byte indices must be integers or slices, not str")
  | VResponse _ => Raise (TypeError "'Response' object is not subscriptable")
  end.

Definition exc_arg_of (resp : value) : exc_arg :=
  match resp with
  | VEnvelope e => ArgEnvelope e
  | VBytes b => ArgText b
  | VResponse r => ArgText (resp_content r)
  end.

Definition json_of_scalar (v : Py.scalar) : Py.json :=
  match v with
  | Py.SNone => Py.JNull
  | Py.SBool b => Py.JBool b
  | Py.SInt n => Py.JInt n
  | Py.SStr s => Py.JStr s
  end.

Definition login_salt : string := "-https://github.com/alist-org/alist".

(** [AlistClient.login] (lines 250-298). The three stores of lines
    261-273 happen first; the generator then logs in (or out, when the
    user name is empty) and drops the cached base path as its last
    step. *)
Definition login (username password : string) (otp_code : Py.scalar)
    (hash_password : bool) (async_ : bool) (kw : Kwargs) : M unit :=
  ns <- get_client ;;
  let username :=
    if Py.str_truthy username then username else ns_username ns in
  let password :=
    if Py.str_truthy password then password else ns_password ns in
  let otp_code :=
    if Py.truthy otp_code then otp_code else ns_otp_code ns in
  put_client (set_otp_code otp_code
                (set_password password (set_username username ns))) ;;;
  (if Py.str_truthy username then
     let payload pw := Py.JObj [("username", Py.JStr username);
                                ("password", Py.JStr pw);
                                ("otp_code", json_of_scalar otp_code)] in
     resp <- (if hash_password
              then auth_login_hash
                     (payload (sha256_hexdigest (password +:+ login_salt)))
                     async_ kw
              else auth_login (payload password) async_ kw) ;;
     code <- lift (resp_code resp) ;;
     if negb ((200 <=? code) && (code <? 300))%Z
     then raise (OSError OSError_ Py.EINVAL (exc_arg_of resp))
     else
       data <- lift (resp_data resp) ;;
       token <- lift (subscript data "token") ;;
       modify_client (fun c =>
         set_headers (<["Authorization" := token]> (headers c)) c)
   else
     modify_client (fun c =>
       set_headers (delete "Authorization" (headers c)) c)) ;;;
  modify_client (set_base_path_cache None).

(** [AlistClient.get_base_path] (lines 314-322). *)
Definition get_base_path (async_ : bool) : M Py.json :=
  resp <- auth_me async_ no_kwargs ;;
  data <- lift (resp_data resp) ;;
  lift (subscript data "base_path").

(** The [cached_property] [base_path] (lines 164-166): the stored value
    when the instance dictionary has one; otherwise the value is
    computed, stored and returned. *)
Definition base_path : M Py.json :=
  ns <- get_client ;;
  match base_path_cache ns with
  | Some v => ret v
  | None =>
      v <- get_base_path false ;;
      modify_client (set_base_path_cache (Some v)) ;;;
      ret v
  end.

(** [AlistClient.__setattr__] (lines 157-162). *)
Definition setattr (attr : string) (val : Py.scalar) : M unit :=
  (if String.eqb attr "username" then
     modify_client (set_username (Py.str val))
   else if String.eqb attr "password" then
     modify_client (set_password (Py.str val)) ;;;
     login "" "" (Py.SStr "") true false no_kwargs
   else if String.eqb attr "otp_code" then
     modify_client (set_otp_code (Py.SStr (Py.str val))) ;;;
     login "" "" (Py.SStr "") true false no_kwargs
   else ret tt) ;;;
  raise (TypeError ("can't set attribute: " +:+ Py.repr_name attr)).

(** [AlistClient.get_url] (lines 2562-2573). *)
Definition get_url (path : string) (ensure_ascii : bool) : M string :=
  bp <- base_path ;;
  path <- (if match bp with Py.JStr s => negb (String.eqb s "/") | _ => true end
           then
             bp <- base_path ;;
             match bp with
             | Py.JStr s => ret (s +:+ path)
             | _ => raise (TypeError "unsupported operand type(s) for +")
             end
           else ret path) ;;
  ns <- get_client ;;
  if ensure_ascii
  then ret (origin ns +:+ "/d" +:+ Url.quote path Url.get_url_safe)
  else ret (origin ns +:+ "/d" +:+ Url.translate path).

End Methods.

(** ** The ranged reader *)

Section RangedReader.
Context `{E : Env}.

Definition range_headers (kw : Kwargs) (range : string) : gmap string string :=
  let fresh : gmap string string :=
    <["Range" := "bytes=" +:+ range]>
      (<["Accept-Encoding" := "identity"]> ∅) in
  match kw_headers kw with
  | Some headers =>
      if decide (headers = ∅) then fresh
      else <["Range" := "bytes=" +:+ range]>
             (<["Accept-Encoding" := "identity"]> headers)
  | None => fresh
  end.

(** The request of lines 2642-2647: the caller's keyword arguments with
    [headers] and [parse] overridden. *)
Definition probe_kwargs (kw : Kwargs) : Kwargs :=
  {| kw_method := kw_method kw;
     kw_headers := Some (range_headers kw "-1");
     kw_parse := Some ParseNone |}.

(** How a response object is released: [aclose] in asynchronous mode
    when the object has it, [close] otherwise. *)
Definition closing_event (r : Response) (async_ : bool) : event :=
  if async_ && resp_has_aclose r then EvAclose r else EvClose r.

(** The [finally] clause of lines 2652-2656. *)
Definition close_response (resp : value) (async_ : bool) : M unit :=
  match resp with
  | VResponse r => emit (closing_event r async_)
  | VBytes _ => raise (AttributeError "close")
  | VEnvelope _ => raise (AttributeError "close")
  end.

(** Calling the module-level name [get_total_length] (line 2649) in the
    namespace [globals]. *)
Definition call_get_total_length (globals : string -> option helper)
    (resp : value) : M (option Z) :=
  match globals "get_total_length" with
  | Some f => ret (f resp)
  | None => raise (NameError "get_total_length")
  end.

(** Lines 2665-2667, reached with the bounds as they then are. *)
Definition finish_range (start : Z) (stop : option Z) : M (option string) :=
  match stop with
  | None =>
      raise (TypeError "'>=' not supported between instances of 'int' and 'NoneType'")
  | Some stop =>
      if (start >=? stop)%Z then ret None
      else ret (Some (Py.fmt_int start +:+ "-" +:+ Py.fmt_int (stop - 1)))
  end.

(** The test of line 2637, [start < 0 or (stop and stop < 0)]. *)
Definition needs_probe (start : Z) (stop : option Z) : bool :=
  (start <? 0)%Z
  || match stop with
     | Some stop => negb (stop =? 0)%Z && (stop <? 0)%Z
     | None => false
     end.

(** [get_bytes_range] (lines 2636-2667), run in the namespace [globals]. *)
Definition get_bytes_range_in (globals : string -> option helper)
    (url : string) (async_ : bool) (kw : Kwargs)
    (start : Z) (stop : option Z) : M (option string) :=
  if needs_probe start stop then
    resp <- request url None None async_ (probe_kwargs kw) ;;
    length <- finally
                (length <- call_get_total_length globals resp ;;
                 match length with
                 | None =>
                     raise (OSError OSError_ Py.ESPIPE
                              (ArgText "can't determine content length"))
                 | Some length => ret length
                 end)
                (close_response resp async_) ;;
    let start := if (start <? 0)%Z then (start + length)%Z else start in
    let start := if (start <? 0)%Z then 0%Z else start in
    match stop with
    | None => ret (Some (Py.fmt_int start +:+ "-"))
    | Some stop' =>
        let stop' := if (stop' <? 0)%Z then (stop' + length)%Z else stop' in
        finish_range start (Some stop')
    end
  else finish_range start stop.

(** [AlistClient.read_bytes_range] (lines 2704-2727). *)
Definition read_bytes_range (url : string) (bytes_range : string)
    (async_ : bool) (kw : Kwargs) : M value :=
  request url None None async_
    {| kw_method := kw_method kw;
       kw_headers := Some (range_headers kw bytes_range);
       kw_parse := Some (default ParseFalse (kw_parse kw)) |}.

(** [AlistClient.read_bytes] (lines 2618-2678), run in the namespace
    [globals]. *)
Definition read_bytes_in (globals : string -> option helper)
    (url : string) (start : Z) (stop : option Z)
    (async_ : bool) (kw : Kwargs) : M value :=
  bytes_range <- get_bytes_range_in globals url async_ kw start stop ;;
  match bytes_range with
  | None => ret (VBytes "")
  | Some bytes_range =>
      if negb (Py.str_truthy bytes_range) then ret (VBytes "")
      else read_bytes_range url bytes_range async_ kw
  end.

(** The two requests the reader makes, as they reach the HTTP helper:
    the length probe and the ranged data request. *)
Definition probe_request (ns : Client) (url : string) (async_ : bool)
    (kw : Kwargs) : Request :=
  build_request ns url (default "POST" (kw_method kw)) None async_
    (probe_kwargs kw).

Definition data_request (ns : Client) (url : string) (async_ : bool)
    (kw : Kwargs) (bytes_range : string) : Request :=
  build_request ns url (default "POST" (kw_method kw)) None async_
    {| kw_method := kw_method kw;
       kw_headers := Some (range_headers kw bytes_range);
       kw_parse := Some (default ParseFalse (kw_parse kw)) |}.

(** The method as the module defines it: names resolve in the module's
    own namespace. *)
Definition get_bytes_range := get_bytes_range_in module_globals.
Definition read_bytes := read_bytes_in module_globals.

(** [AlistClient.read_block] (lines 2753-2783). With [size <= 0] the
    asynchronous branch returns an asynchronous generator, which cannot
    be awaited. *)
Definition read_block (url : string) (size offset : Z)
    (async_ : bool) (kw : Kwargs) : M value :=
  if (size <=? 0)%Z then
    if async_
    then raise (TypeError "object async_generator can't be used in 'await' expression")
    else ret (VBytes "")
  else read_bytes url offset (Some (offset + size)%Z) async_ kw.

End RangedReader.

(** ** A test double for the outside world

    A server with one account ([alice] / [secret]) whose base path is
    [/home], serving a resource of 100 bytes. *)

Module Demo.

Definition digest (s : string) : string := "sha256(" +:+ s +:+ ")".

Definition login_reply (payload : option Py.json) : Envelope :=
  match payload with
  | Some (Py.JObj [(_, Py.JStr "alice"); (_, Py.JStr pw); _]) =>
      if String.eqb pw (digest ("secret" +:+ login_salt))
      then {| code := 200; message := "success";
              data := Py.JObj [("token", Py.JStr "alist-token-1")] |}
      else {| code := 400; message := "password is incorrect";
              data := Py.JNull |}
  | _ => {| code := 400; message := "username or password is incorrect";
            data := Py.JNull |}
  end.

Definition probe_response : Response :=
  {| resp_headers := [("Content-Range", "bytes 99-99/100");
                      ("Content-Length", "1")];
     resp_content := "z";
     resp_has_aclose := true |}.

Definition transport (history : list event) (rq : Request) : result value :=
  if Py.endswith (rq_url rq) "/api/auth/login/hash" then
    Ok (VEnvelope (login_reply (rq_json rq)))
  else if Py.endswith (rq_url rq) "/api/me" then
    Ok (VEnvelope {| code := 200; message := "success";
                     data := Py.JObj [("base_path", Py.JStr "/home")] |})
  else
    match rq_parse rq with
    | ParseNone => Ok (VResponse probe_response)
    | _ => Ok (VBytes "0123456789")
    end.

Definition env : Env :=
  {| httpx_request := transport;
     sha256_hexdigest := digest;
     get_content_length := fun v =>
       match v with
       | VResponse r => Some (Z.of_nat (String.length (resp_content r)))
       | _ => None
       end |}.

(** A logged-in client with a cached base path. *)
Definition alice : Client :=
  {| origin := "http://localhost:5244";
     username := "alice";
     password := "secret";
     otp_code := Py.SStr "";
     headers := {["Authorization" := Py.JStr "alist-token-0"]};
     base_path_cache := Some (Py.JStr "/home") |}.

(** An administrator, whose base path is the root. *)
Definition admin : Client :=
  {| origin := "http://localhost:5244";
     username := "admin";
     password := "secret";
     otp_code := Py.SStr "";
     headers := {["Authorization" := Py.JStr "alist-token-9"]};
     base_path_cache := Some (Py.JStr "/") |}.

Definition world (c : Client) : World := {| client := c; trace := [] |}.

Definition file_url : string := "http://localhost:5244/d/home/a.bin".

(** A login with a wrong password, and the assignment of one. *)
Definition failed_login : result unit * World :=
  @login env "" "wrong" (Py.SStr "") true false no_kwargs (world alice).

Definition password_assignment : result unit * World :=
  @setattr env "password" (Py.SStr "wrong") (world alice).

Definition rejected : Envelope :=
  {| code := 400; message := "password is incorrect"; data := Py.JNull |}.

End Demo.

(** ** Construction, comparison and the plain endpoints *)

Section MoreMethods.
Context `{E : Env}.

(** The headers every new client starts with (lines 133-137). *)
Definition default_headers : gmap string Py.json :=
  <["Accept" := Py.JStr "application/json, text/plain, */*"]>
    (<["Accept-Encoding" := Py.JStr "gzip, deflate, br, zstd"]>
       (<["Connection" := Py.JStr "keep-alive"]> ∅)).

(** [AlistClient.__init__] (lines 120-141): the instance dictionary is
    filled, and a client that is given a user name logs in at once.
    [complete_url] is the helper of [http_request] that normalises the
    origin; [history] is what the outside world has seen so far. *)
Definition init (complete_url : string -> string)
    (origin username password : string) (otp_code : Py.scalar)
    (history : list event) : result unit * World :=
  let ns := {| origin := complete_url origin;
               username := username;
               password := password;
               otp_code := otp_code;
               headers := default_headers;
               base_path_cache := None |} in
  if Py.str_truthy username
  then login "" "" (Py.SStr "") true false no_kwargs
         {| client := ns; trace := history |}
  else (Ok tt, {| client := ns; trace := history |}).

(** [AlistClient.__eq__] (lines 146-147), between two clients: the same
    origin and the same user name. *)
Definition eq_ (self other : Client) : bool :=
  String.eqb (origin self) (origin other)
  && String.eqb (username self) (username other).

(** [fs_list] and [fs_get] (lines 433-467): a JSON body, POST unless the
    caller says otherwise. *)
Definition fs_list (payload : Py.json) (async_ : bool) (kw : Kwargs)
  : M value :=
  request "/api/fs/list" None (Some payload) async_ kw.

Definition fs_get (payload : Py.json) (async_ : bool) (kw : Kwargs)
  : M value :=
  request "/api/fs/get" None (Some payload) async_ kw.

(** [public_settings] and [public_ping] (lines 776-808): the method is
    passed positionally, as in [auth_me]. *)
Definition public_settings (async_ : bool) (kw : Kwargs) : M value :=
  request "/api/public/settings" (Some "GET") None async_ kw.

Definition public_ping (async_ : bool) (kw : Kwargs) : M value :=
  request "/ping" (Some "GET") None async_ kw.

(** The request a login makes, for the credentials as stored in [ns]. *)
Definition login_request (ns : Client) (hash_password async_ : bool)
    (kw : Kwargs) : Request :=
  build_request ns
    (if hash_password then "/api/auth/login/hash" else "/api/auth/login")
    (default "POST" (kw_method kw))
    (Some (Py.JObj
             [("username", Py.JStr (ns_username ns));
              ("password",
               Py.JStr (if hash_password
                        then sha256_hexdigest (ns_password ns +:+ login_salt)
                        else ns_password ns));
              ("otp_code", json_of_scalar (ns_otp_code ns))]))
    async_ kw.

(** The identity lookup, as it reaches the HTTP helper. *)
Definition lookup_request (ns : Client) (async_ : bool) : Request :=
  build_request ns "/api/me" "GET" None async_ no_kwargs.

End MoreMethods.

(** The stored credentials after a login was given [username], [password]
    and [otp_code]: what is given replaces what is stored. *)
Definition with_credentials (username password : string)
    (otp_code : Py.scalar) (ns : Client) : Client :=
  set_otp_code (if Py.truthy otp_code then otp_code else ns_otp_code ns)
    (set_password (if Py.str_truthy password then password else ns_password ns)
       (set_username (if Py.str_truthy username then username
                      else ns_username ns) ns)).

(** A computation that never touches the client, whatever its outcome. *)
Definition keeps_client {A} (m : M A) : Prop :=
  ∀ w, client (snd (m w)) = client w.

(** The characters a percent-encoded path is made of. *)
Definition url_char (safe : string) (c : ascii) : bool :=
  Url.always_safe c || Url.in_string c safe || Ascii.eqb c "%".

Fixpoint all_chars (P : ascii -> bool) (s : string) : bool :=
  match s with
  | EmptyString => true
  | String c rest => P c && all_chars P rest
  end.

(** A character that neither starts a query nor a fragment. *)
Definition plain_char (c : ascii) : bool :=
  negb (Ascii.eqb c "#") && negb (Ascii.eqb c "?").

(** A second test double: a server whose identity endpoint answers with an
    error code and a base path all the same, and a server that is down. *)
Module Demo2.

Definition odd_identity : Envelope :=
  {| code := 500; message := "internal"; 
     data := Py.JObj [("base_path", Py.JStr "/srv")] |}.

Definition env : Env :=
  {| httpx_request := fun _ _ => Ok (VEnvelope odd_identity);
     sha256_hexdigest := Demo.digest;
     get_content_length := fun _ => None |}.

Definition down : Env :=
  {| httpx_request := fun _ _ => Raise (TransportError "connection refused");
     sha256_hexdigest := Demo.digest;
     get_content_length := fun _ => None |}.

(** A client that has not looked its base path up yet. *)
Definition fresh : Client := set_base_path_cache None Demo.alice.


(** Keyword arguments with headers of the caller's own. *)
Definition with_headers : Kwargs :=
  {| kw_method := Some "GET";
     kw_headers := Some (<["Range" := "bytes=0-"]>
                           (<["User-Agent" := "curl/8"]> ∅));
     kw_parse := None |}.


End Demo2.

(** * Properties *)

(** ** Python string predicates *)

Lemma substring_all (s : string) : String.substring 0 (String.length s) s = s.
Proof. induction s as [|c s IH]; simpl; [reflexivity | now rewrite IH]. Qed.

Lemma substring_skip (p s : string) (k : nat) :
  String.substring (String.length p) k (p +:+ s) = String.substring 0 k s.
Proof. induction p as [|c p IH]; simpl; [reflexivity | exact IH]. Qed.

Lemma length_append (p s : string) :
  String.length (p +:+ s) = (String.length p + String.length s)%nat.
Proof. induction p as [|c p IH]; simpl; [reflexivity | now rewrite IH]. Qed.

(** A string that is built by appending [suffix] ends with it. *)
Lemma endswith_append (p suffix : string) :
  Py.endswith (p +:+ suffix) suffix = true.
Proof.
  unfold Py.endswith. cbv zeta. rewrite length_append.
  replace (String.length p + String.length suffix - String.length suffix)%nat
    with (String.length p) by lia.
  rewrite substring_skip, substring_all, String.eqb_refl.
  rewrite andb_true_r. apply Nat.leb_le. lia.
Qed.

(** A string that is built by prepending [pre] starts with it. *)
Lemma startswith_append (pre s : string) :
  Py.startswith (pre +:+ s) pre = true.
Proof.
  unfold Py.startswith. induction pre as [|c pre IH]; simpl.
  - now destruct s.
  - destruct (ascii_dec c c) as [_|ne]; [exact IH | now destruct ne].
Qed.

Lemma substring_split (s : string) (n : nat) :
  (n ≤ String.length s)%nat →
  s = String.substring 0 n s
      +:+ String.substring n (String.length s - n) s.
Proof.
  revert n. induction s as [|c s IH]; intros [|n] H; simpl in *;
    try reflexivity; try lia.
  - now rewrite substring_all.
  - change (String c s
            = String c (String.substring 0 n s
                        +:+ String.substring n (String.length s - n) s)).
    f_equal. apply IH. lia.
Qed.

(** Conversely, a string that ends with [suffix] is something followed by
    [suffix], and a string that starts with [pre] is [pre] followed by
    something. *)
Lemma endswith_inv (s suffix : string) :
  Py.endswith s suffix = true → ∃ p, s = p +:+ suffix.
Proof.
  unfold Py.endswith. cbv zeta.
  remember (String.length suffix) as k eqn:Hk.
  remember (String.length s) as n eqn:Hn. intros H.
  apply andb_true_iff in H as [Hle Heq].
  apply Nat.leb_le in Hle. apply String.eqb_eq in Heq.
  exists (String.substring 0 (n - k) s). rewrite <- Heq.
  replace (String.substring (n - k) k s)
    with (String.substring (n - k) (n - (n - k)) s) by (f_equal; lia).
  subst n. apply substring_split. lia.
Qed.

Lemma startswith_inv (s pre : string) :
  Py.startswith s pre = true → ∃ rest, s = pre +:+ rest.
Proof.
  unfold Py.startswith. revert s.
  induction pre as [|c pre IH]; intros s H.
  - now exists s.
  - destruct s as [|d s]; simpl in H; [discriminate|].
    destruct (ascii_dec c d) as [->|]; [|discriminate].
    destruct (IH _ H) as [rest ->]. now exists rest.
Qed.

(** ** The response validator *)

Section Validator.

Implicit Type resp : Envelope.

Lemma check_code_outside resp :
  ¬ (200 ≤ code resp < 300) →
  ((200 <=? code resp) && (code resp <? 300))%Z = false.
Proof.
  intros H. apply andb_false_iff.
  destruct (Z.leb_spec 200 (code resp)); [right | now left].
  apply Z.ltb_ge. lia.
Qed.

(** C1. Outside the success range the validator raises, and the kind of
    failure is decided by the first matching row: 403 is a permission
    error (EACCES) whatever the message; for 500 the message decides
    between not-found, not-a-directory, already-exists and the
    operation-level permission error (EPERM), in that order; everything
    else is the generic I/O failure. Each failure carries the whole
    envelope. *)
Theorem check_code_failure_mapping resp :
  ¬ (200 ≤ code resp < 300) →
  (code resp = 403 →
     check_code resp
     = Raise (OSError PermissionError Py.EACCES (ArgEnvelope resp)))
  ∧ (code resp = 500 → says_not_found (message resp) = true →
     check_code resp
     = Raise (OSError FileNotFoundError Py.ENOENT (ArgEnvelope resp)))
  ∧ (code resp = 500 → says_not_found (message resp) = false →
     Py.endswith (message resp) "not a folder" = true →
     check_code resp
     = Raise (OSError NotADirectoryError Py.ENOTDIR (ArgEnvelope resp)))
  ∧ (code resp = 500 → says_not_found (message resp) = false →
     Py.endswith (message resp) "not a folder" = false →
     Py.endswith (message resp) "file exists" = true →
     check_code resp
     = Raise (OSError FileExistsError Py.EEXIST (ArgEnvelope resp)))
  ∧ (code resp = 500 → says_not_found (message resp) = false →
     Py.endswith (message resp) "not a folder" = false →
     Py.endswith (message resp) "file exists" = false →
     Py.startswith (message resp) "failed get " = true →
     check_code resp
     = Raise (OSError PermissionError Py.EPERM (ArgEnvelope resp)))
  ∧ (code resp ≠ 403 →
     (code resp = 500 →
        says_not_found (message resp) = false
        ∧ Py.endswith (message resp) "not a folder" = false
        ∧ Py.endswith (message resp) "file exists" = false
        ∧ Py.startswith (message resp) "failed get " = false) →
     check_code resp
     = Raise (OSError OSError_ Py.EIO (ArgEnvelope resp))).
Proof.
  intros Hout. unfold check_code, says_not_found. cbv zeta.
  rewrite (check_code_outside _ Hout).
  repeat split.
  - intros ->. reflexivity.
  - intros -> ->. reflexivity.
  - intros -> -> ->. reflexivity.
  - intros -> -> -> ->. reflexivity.
  - intros -> -> -> -> ->. reflexivity.
  - intros H403 H500.
    destruct (Z.eqb_spec (code resp) 403) as [|_]; [contradiction|].
    destruct (Z.eqb_spec (code resp) 500) as [e|_]; [|reflexivity].
    destruct (H500 e) as (-> & -> & -> & ->). reflexivity.
Qed.

(** C7. Inside the success range the validator hands back the very
    envelope it was given, whatever its message, whether the envelope
    came directly or as the result of an awaitable. *)
Theorem check_code_success resp :
  200 ≤ code resp < 300 →
  check_code resp = Ok resp
  ∧ check_answer (Plain resp) = Ok resp
  ∧ check_answer (Awaited resp) = Ok resp.
Proof.
  intros [Hlo Hhi].
  assert (check_code resp = Ok resp) as H.
  { unfold check_code. cbv zeta.
    apply Z.leb_le in Hlo. apply Z.ltb_lt in Hhi.
    now rewrite Hlo, Hhi. }
  now repeat split.
Qed.

End Validator.

(** More of the specification's examples. *)
Example check_code_403 :
  check_code {| code := 403; message := "object not found"; data := Py.JNull |}
  = Raise (OSError PermissionError Py.EACCES
             (ArgEnvelope {| code := 403; message := "object not found";
                             data := Py.JNull |})).
Proof. reflexivity. Qed.

Example check_code_storage_not_found :
  check_code {| code := 500;
                message := "failed get storage: storage not found: y";
                data := Py.JNull |}
  = Raise (OSError FileNotFoundError Py.ENOENT
             (ArgEnvelope {| code := 500;
                             message := "failed get storage: storage not found: y";
                             data := Py.JNull |})).
Proof. reflexivity. Qed.

Example check_code_file_exists :
  check_code {| code := 500; message := "file exists"; data := Py.JNull |}
  = Raise (OSError FileExistsError Py.EEXIST
             (ArgEnvelope {| code := 500; message := "file exists";
                             data := Py.JNull |})).
Proof. reflexivity. Qed.

Example check_code_failed_get :
  check_code {| code := 500; message := "failed get dir: denied";
                data := Py.JNull |}
  = Raise (OSError PermissionError Py.EPERM
             (ArgEnvelope {| code := 500; message := "failed get dir: denied";
                             data := Py.JNull |})).
Proof. reflexivity. Qed.

Example check_code_other :
  check_code {| code := 401; message := "token is expired"; data := Py.JNull |}
  = Raise (OSError OSError_ Py.EIO
             (ArgEnvelope {| code := 401; message := "token is expired";
                             data := Py.JNull |})).
Proof. reflexivity. Qed.

(** The messages of the specification's examples, classified. *)
Lemma check_code_failure_mapping_examples :
  check_code {| code := 500; message := "xxx object not found";
                data := Py.JNull |}
  = Raise (OSError FileNotFoundError Py.ENOENT
             (ArgEnvelope {| code := 500; message := "xxx object not found";
                             data := Py.JNull |}))
  ∧ check_code {| code := 500; message := "path is not a folder";
                  data := Py.JNull |}
    = Raise (OSError NotADirectoryError Py.ENOTDIR
               (ArgEnvelope {| code := 500; message := "path is not a folder";
                               data := Py.JNull |})).
Proof.
  split.
  - apply (check_code_failure_mapping
             {| code := 500; message := "xxx object not found";
                data := Py.JNull |}); simpl; [lia | reflexivity | reflexivity].
  - apply (check_code_failure_mapping
             {| code := 500; message := "path is not a folder";
                data := Py.JNull |}); simpl; [lia | reflexivity..].
Defined.

Lemma check_code_success_example :
  check_code {| code := 200; message := "success";
                data := Py.JObj [("token", Py.JStr "t")] |}
  = Ok {| code := 200; message := "success";
          data := Py.JObj [("token", Py.JStr "t")] |}.
Proof.
  apply (check_code_success
           {| code := 200; message := "success";
              data := Py.JObj [("token", Py.JStr "t")] |}).
  simpl. lia.
Defined.

(** ** Running the monad *)

Section Running.
Context `{E : Env}.

Lemma bind_ok {A B} (m : M A) (k : A → M B) w a w' :
  m w = (Ok a, w') → bind m k w = k a w'.
Proof. unfold bind. now intros ->. Qed.

Lemma bind_raise {A B} (m : M A) (k : A → M B) w e w' :
  m w = (Raise e, w') → bind m k w = (Raise e, w').
Proof. unfold bind. now intros ->. Qed.

(** A call without a positional method uses the caller's [method]
    keyword, or POST. *)
Lemma request_default_method url payload async_ kw w :
  request url None payload async_ kw w
  = send (build_request (client w) url (default "POST" (kw_method kw))
            payload async_ kw) w.
Proof. unfold request. now destruct (kw_method kw). Qed.

Lemma range_headers_lookup kw range :
  range_headers kw range !! "Range" = Some ("bytes=" +:+ range)
  ∧ range_headers kw range !! "Accept-Encoding" = Some "identity".
Proof.
  unfold range_headers.
  destruct (kw_headers kw) as [h|]; [destruct (decide (h = ∅))|];
    (split; [apply lookup_insert_eq
            | rewrite lookup_insert_ne by discriminate;
              apply lookup_insert_eq]).
Qed.

(** Every header the caller passed, other than the two the reader sets,
    is kept. *)
Lemma range_headers_keeps kw range h name :
  kw_headers kw = Some h → name ≠ "Range" → name ≠ "Accept-Encoding" →
  range_headers kw range !! name = h !! name.
Proof.
  intros Hh H1 H2. unfold range_headers. rewrite Hh.
  destruct (decide (h = ∅)) as [->|];
    rewrite !lookup_insert_ne by congruence; reflexivity.
Qed.

Lemma fmt_range_truthy (a b : string) : Py.str_truthy (a +:+ "-" +:+ b) = true.
Proof. now destruct a. Qed.

Lemma needs_probe_false (start stop : Z) :
  (0 ≤ start)%Z → (0 ≤ stop)%Z → needs_probe start (Some stop) = false.
Proof.
  intros H1 H2. unfold needs_probe.
  apply orb_false_iff. split; [now apply Z.ltb_ge|].
  apply andb_false_iff. right. now apply Z.ltb_ge.
Qed.

Lemma needs_probe_true (start : Z) (stop : option Z) :
  (start < 0)%Z ∨ (∃ s, stop = Some s ∧ (s < 0)%Z) →
  needs_probe start stop = true.
Proof.
  unfold needs_probe. intros [H|(s & -> & H)].
  - apply Z.ltb_lt in H. now rewrite H.
  - apply orb_true_iff. right. apply andb_true_iff. split.
    + apply negb_true_iff. apply Z.eqb_neq. lia.
    + now apply Z.ltb_lt.
Qed.

End Running.

(** ** The ranged reader *)

Section Reader.
Context `{E : Env}.

Implicit Types (url : string) (start : Z) (stop : option Z).
Implicit Types (kw : Kwargs) (w : World).

Lemma after_nil w : after w [] = w.
Proof. destruct w. unfold after. simpl. now rewrite app_nil_r. Qed.

Lemma after_after w evs evs' : after (after w evs) evs' = after w (evs ++ evs').
Proof. unfold after. simpl. now rewrite <- app_assoc. Qed.

Lemma read_bytes_range_sends url range async_ kw w :
  read_bytes_range url range async_ kw w
  = (httpx_request (trace w) (data_request (client w) url async_ kw range),
     after w [EvRequest (data_request (client w) url async_ kw range)]).
Proof. unfold read_bytes_range. now rewrite request_default_method. Qed.

Lemma probe_sends url async_ kw w :
  request url None None async_ (probe_kwargs kw) w
  = (httpx_request (trace w) (probe_request (client w) url async_ kw),
     after w [EvRequest (probe_request (client w) url async_ kw)]).
Proof. now rewrite request_default_method. Qed.

(** Without a probe, range resolution is the comparison of lines
    2665-2667 and touches nothing. *)
Lemma get_bytes_range_in_direct globals url async_ kw start (s : Z) w :
  (0 ≤ start)%Z → (0 ≤ s)%Z →
  get_bytes_range_in globals url async_ kw start (Some s) w
  = (Ok (if (start >=? s)%Z then None
         else Some (Py.fmt_int start +:+ "-" +:+ Py.fmt_int (s - 1))), w).
Proof.
  intros H1 H2. unfold get_bytes_range_in.
  rewrite needs_probe_false by assumption. unfold finish_range.
  now destruct (start >=? s)%Z.
Qed.

(** C2, as the code has it. For [0 <= start < stop] the reader makes no
    probe and exactly one request, whose headers carry
    [Range: bytes={start}-{stop-1}] and [Accept-Encoding: identity];
    what that request evaluates to (the raw body, unless the caller
    chose another [parse]) is the result. For [0 <= stop <= start] it
    sends nothing and the result is empty. *)
Theorem read_bytes_forward_range url start (s : Z) async_ kw w :
  (0 ≤ start)%Z →
  ((start < s)%Z →
   ∃ rq h,
     rq = data_request (client w) url async_ kw
            (Py.fmt_int start +:+ "-" +:+ Py.fmt_int (s - 1))
     ∧ read_bytes url start (Some s) async_ kw w
       = (httpx_request (trace w) rq, after w [EvRequest rq])
     ∧ rq_headers rq = Some h
     ∧ h !! "Range"
       = Some ("bytes=" +:+ Py.fmt_int start +:+ "-" +:+ Py.fmt_int (s - 1))
     ∧ h !! "Accept-Encoding" = Some "identity"
     ∧ rq_parse rq = default ParseFalse (kw_parse kw))
  ∧ ((0 ≤ s ≤ start)%Z →
     read_bytes url start (Some s) async_ kw w = (Ok (VBytes ""), w)).
Proof.
  intros H1. split.
  - intros H2. eexists. eexists. split; [reflexivity|].
    split; [|split; [reflexivity|]].
    + unfold read_bytes, read_bytes_in.
      erewrite bind_ok by (apply get_bytes_range_in_direct; lia).
      replace (start >=? s)%Z with false
        by (symmetry; rewrite Z.geb_leb; apply Z.leb_gt; lia).
      rewrite fmt_range_truthy. simpl. apply read_bytes_range_sends.
    + destruct (range_headers_lookup kw
                  (Py.fmt_int start +:+ "-" +:+ Py.fmt_int (s - 1))) as [Hr Ha].
      now repeat split.
  - intros H2. unfold read_bytes, read_bytes_in.
    erewrite bind_ok by (apply get_bytes_range_in_direct; lia).
    replace (start >=? s)%Z with true
      by (symmetry; rewrite Z.geb_leb; apply Z.leb_le; lia).
    reflexivity.
Qed.

(** What range resolution does once it probes, in any namespace: the
    probe is sent, the response is released, and only then the outcome
    of the length extraction decides how the call goes on. *)
Lemma get_bytes_range_in_probe globals url async_ kw start stop w r :
  needs_probe start stop = true →
  httpx_request (trace w) (probe_request (client w) url async_ kw)
  = Ok (VResponse r) →
  get_bytes_range_in globals url async_ kw start stop w
  = match globals "get_total_length" with
    | None =>
        (Raise (NameError "get_total_length"),
         after w [EvRequest (probe_request (client w) url async_ kw);
                  closing_event r async_])
    | Some f =>
        match f (VResponse r) with
        | None =>
            (Raise (OSError OSError_ Py.ESPIPE
                      (ArgText "can't determine content length")),
             after w [EvRequest (probe_request (client w) url async_ kw);
                      closing_event r async_])
        | Some length =>
            let start' :=
              if (start <? 0)%Z then (start + length)%Z else start in
            let start' := if (start' <? 0)%Z then 0%Z else start' in
            match stop with
            | None => ret (Some (Py.fmt_int start' +:+ "-"))
            | Some s =>
                finish_range start'
                  (Some (if (s <? 0)%Z then (s + length)%Z else s))
            end (after w [EvRequest (probe_request (client w) url async_ kw);
                          closing_event r async_])
        end
    end.
Proof.
  intros Hp Hr. unfold get_bytes_range_in. rewrite Hp.
  unfold bind at 1. rewrite probe_sends, Hr.
  unfold bind at 1, finally, call_get_total_length, close_response.
  destruct (globals "get_total_length") as [f|]; simpl.
  - destruct (f (VResponse r)) as [length|]; simpl.
    + unfold after. simpl. rewrite <- app_assoc. simpl.
      now destruct stop.
    + unfold after. simpl. now rewrite <- app_assoc.
  - unfold after. simpl. now rewrite <- app_assoc.
Qed.

Lemma module_globals_unbound : module_globals "get_total_length" = None.
Proof. reflexivity. Qed.

(** C6, on the code: whenever range resolution ends with
    [start >= stop] (its only [return None]), the reader returns the
    empty byte string and makes no request after the resolution; for
    bounds that need no probe ([0 <= stop <= start]) it makes no request
    at all. Bounds that have to be normalised first never get that far:
    once the probe is answered the call raises, whatever the normalised
    bounds would have been. *)
Theorem read_bytes_empty_range url start stop async_ kw w :
  (∀ w', get_bytes_range url async_ kw start stop w = (Ok None, w') →
         read_bytes url start stop async_ kw w = (Ok (VBytes ""), w'))
  ∧ (∀ s : Z, stop = Some s → (0 ≤ s ≤ start)%Z →
         read_bytes url start stop async_ kw w = (Ok (VBytes ""), w))
  ∧ (∀ r, needs_probe start stop = true →
          httpx_request (trace w) (probe_request (client w) url async_ kw)
          = Ok (VResponse r) →
          fst (read_bytes url start stop async_ kw w)
          = Raise (NameError "get_total_length")).
Proof.
  split; [|split].
  - intros w' H. unfold read_bytes, read_bytes_in.
    unfold get_bytes_range in H. now rewrite (bind_ok _ _ _ _ _ H).
  - intros s -> [H1 H2]. unfold read_bytes, read_bytes_in.
    erewrite bind_ok by (apply get_bytes_range_in_direct; lia).
    replace (start >=? s)%Z with true by (symmetry; rewrite Z.geb_leb; apply Z.leb_le; lia).
    reflexivity.
  - intros r Hp Hr. unfold read_bytes, read_bytes_in.
    erewrite bind_raise; [reflexivity|].
    rewrite (get_bytes_range_in_probe _ _ _ _ _ _ _ r) by assumption.
    reflexivity.
Qed.

(** C4, on the code: for a negative [start] (or a negative [stop]) the
    reader first sends the probe, with [Range: bytes=-1] and
    [Accept-Encoding: identity], asking for the response object. When the
    probe is answered, the call then ends in a [NameError]: the name
    [get_total_length] is bound nowhere in the module. The response is
    released, the bounds are never normalised and no data request is
    made. *)
Theorem read_bytes_relative_bounds url start stop async_ kw w r :
  (start < 0)%Z ∨ (∃ s, stop = Some s ∧ (s < 0)%Z) →
  httpx_request (trace w) (probe_request (client w) url async_ kw)
  = Ok (VResponse r) →
  read_bytes url start stop async_ kw w
  = (Raise (NameError "get_total_length"),
     after w [EvRequest (probe_request (client w) url async_ kw);
              closing_event r async_])
  ∧ ∃ h, rq_headers (probe_request (client w) url async_ kw) = Some h
         ∧ h !! "Range" = Some "bytes=-1"
         ∧ h !! "Accept-Encoding" = Some "identity"
         ∧ rq_parse (probe_request (client w) url async_ kw) = ParseNone.
Proof.
  intros Hneg Hr. split.
  - unfold read_bytes, read_bytes_in.
    erewrite bind_raise; [reflexivity|].
    rewrite (get_bytes_range_in_probe _ _ _ _ _ _ _ r)
      by (try apply needs_probe_true; assumption).
    now rewrite module_globals_unbound.
  - exists (range_headers kw "-1").
    destruct (range_headers_lookup kw "-1") as [H1 H2].
    now repeat split.
Qed.

(** C5, on the code: in every namespace and whatever the length
    extraction does, the probe response is released right after the
    probe. A response without a determinable length ends the call with
    [OSError(ESPIPE)] and no data request where the extraction function
    is bound; in the module it is not, and the call ends with a
    [NameError] instead. *)
Theorem probe_response_released globals url start stop async_ kw w r :
  needs_probe start stop = true →
  httpx_request (trace w) (probe_request (client w) url async_ kw)
  = Ok (VResponse r) →
  (∃ rest,
     trace (snd (read_bytes_in globals url start stop async_ kw w))
     = (trace w ++ [EvRequest (probe_request (client w) url async_ kw);
                    closing_event r async_] ++ rest)%list)
  ∧ (∀ f, globals "get_total_length" = Some f → f (VResponse r) = None →
       read_bytes_in globals url start stop async_ kw w
       = (Raise (OSError OSError_ Py.ESPIPE
                   (ArgText "can't determine content length")),
          after w [EvRequest (probe_request (client w) url async_ kw);
                   closing_event r async_]))
  ∧ read_bytes url start stop async_ kw w
    = (Raise (NameError "get_total_length"),
       after w [EvRequest (probe_request (client w) url async_ kw);
                closing_event r async_]).
Proof.
  intros Hp Hr.
  pose proof (get_bytes_range_in_probe globals url async_ kw start stop w r
                Hp Hr) as Hg.
  split; [|split].
  - unfold read_bytes_in, bind. rewrite Hg.
    destruct (globals "get_total_length") as [f|];
      [destruct (f (VResponse r)) as [length|]|];
      try (exists []; reflexivity).
    cbv zeta. destruct stop as [s|]; unfold finish_range, ret.
    + match goal with
      | |- context [(?a >=? ?b)%Z] => destruct (a >=? b)%Z
      end.
      * exists []. reflexivity.
      * rewrite fmt_range_truthy. cbn [negb].
        rewrite read_bytes_range_sends. eexists. cbn [snd trace after].
        rewrite <- app_assoc. reflexivity.
    + match goal with
      | |- context [Py.str_truthy ?x] =>
          replace (Py.str_truthy x) with true
            by (symmetry; apply (fmt_range_truthy _ ""))
      end.
      cbn [negb]. rewrite read_bytes_range_sends. eexists.
      cbn [snd trace after]. rewrite <- app_assoc. reflexivity.
  - intros f Hf Hnone. unfold read_bytes_in.
    erewrite bind_raise; [reflexivity|]. now rewrite Hg, Hf, Hnone.
  - unfold read_bytes, read_bytes_in.
    erewrite bind_raise; [reflexivity|].
    rewrite (get_bytes_range_in_probe _ _ _ _ _ _ _ r) by assumption.
    now rewrite module_globals_unbound.
Qed.

(** With the length extraction bound (as a module that imported it
    would have it) and the length known, a negative [start] is moved by
    the length and clamped at 0, and an open-ended range is fetched;
    [start = -10] against a resource of [length >= 10] fetches
    [{length-10}-]. *)
Lemma read_bytes_in_tail globals f url start async_ kw w r length :
  globals "get_total_length" = Some f → f (VResponse r) = Some length →
  (start < 0)%Z →
  httpx_request (trace w) (probe_request (client w) url async_ kw)
  = Ok (VResponse r) →
  read_bytes_in globals url start None async_ kw w
  = read_bytes_range url (Py.fmt_int (Z.max 0 (start + length)) +:+ "-")
      async_ kw
      (after w [EvRequest (probe_request (client w) url async_ kw);
                closing_event r async_]).
Proof.
  intros Hf Hlen Hneg Hr. unfold read_bytes_in.
  erewrite bind_ok.
  2:{ rewrite (get_bytes_range_in_probe _ _ _ _ _ _ _ r)
        by (try apply needs_probe_true; auto).
      rewrite Hf, Hlen. cbv zeta. unfold ret. reflexivity. }
  replace (start <? 0)%Z with true by (symmetry; now apply Z.ltb_lt).
  replace (if (start + length <? 0)%Z then 0%Z else (start + length)%Z)
    with (Z.max 0 (start + length))
    by (destruct (Z.ltb_spec (start + length) 0); lia).
  now rewrite (fmt_range_truthy _ "").
Qed.

(** X19. The default call, and every call with [start >= 0] and no [stop]:
    line 2665 compares an integer with [None]. *)
Lemma read_bytes_open_ended url start async_ kw w :
  (0 ≤ start)%Z →
  read_bytes url start None async_ kw w
  = (Raise (TypeError "'>=' not supported between instances of 'int' and 'NoneType'"),
     w).
Proof.
  intros H. unfold read_bytes, read_bytes_in, get_bytes_range_in, needs_probe.
  replace (start <? 0)%Z with false by (symmetry; now apply Z.ltb_ge).
  reflexivity.
Qed.

(** C8, on the code: a block of positive size is the read of
    [start=offset, stop=offset+size], in either mode; a block of size 0
    or less sends nothing in either mode, and is the empty byte string in
    synchronous mode. In asynchronous mode the empty block is an
    asynchronous generator rather than an awaitable: awaiting the call
    fails. *)
Theorem read_block_as_read_bytes url (size offset : Z) async_ kw w :
  ((0 < size)%Z →
     read_block url size offset async_ kw w
     = read_bytes url offset (Some (offset + size)%Z) async_ kw w)
  ∧ ((size ≤ 0)%Z →
     read_block url size offset false kw w = (Ok (VBytes ""), w)
     ∧ read_block url size offset true kw w
       = (Raise (TypeError "object async_generator can't be used in 'await' expression"),
          w)).
Proof.
  unfold read_block. split; intros H.
  - now replace (size <=? 0)%Z with false by (symmetry; now apply Z.leb_gt).
  - now replace (size <=? 0)%Z with true by (symmetry; now apply Z.leb_le).
Qed.

End Reader.

(** ** The session manager *)

Section Session.
Context `{E : Env}.

Implicit Types (w : World) (kw : Kwargs) (ns : Client).

(** One step of symbolic execution: expose the next bind and split on
    whatever the computation inspects next. *)
Ltac step :=
  match goal with
  | |- context [match ?x with _ => _ end] =>
      first [ is_var x; destruct x
            | let H := fresh "Hcase" in destruct x eqn:H ]
  | H : (_, _) = (_, _) |- _ => inversion H; subst; clear H
  | H : context [match ?x with _ => _ end] |- _ =>
      first [ is_var x; destruct x
            | let H' := fresh "Hcase" in destruct x eqn:H' ]
  end.

Ltac run :=
  unfold login, base_path, get_base_path, auth_login, auth_login_hash,
    auth_me, request, send, modify_client, get_client, put_client,
    lift, bind, ret, raise in *;
  cbn [client trace fst snd] in *.

(** A login that returns has dropped the cached base path. *)
Lemma login_returns_invalidated username password otp_code hash_password
    async_ kw w w' :
  login username password otp_code hash_password async_ kw w = (Ok tt, w') →
  base_path_cache (client w') = None.
Proof.
  run. intros H. repeat step; try discriminate; reflexivity.
Qed.

(** A login that raises has replaced the stored credentials and nothing
    else: the authorization header and the cached base path are the ones
    from before the call. *)
Lemma login_raises_unchanged username password otp_code hash_password
    async_ kw w w' e :
  login username password otp_code hash_password async_ kw w = (Raise e, w') →
  headers (client w') = headers (client w)
  ∧ base_path_cache (client w') = base_path_cache (client w)
  ∧ origin (client w') = origin (client w).
Proof.
  run. intros H. repeat step; try discriminate; now repeat split.
Qed.

(** Whatever its outcome, a login has stored the credentials it was
    given, and kept the stored ones where it was given none. *)
Lemma login_stores_credentials username password otp_code hash_password
    async_ kw w :
  let w' := snd (login username password otp_code hash_password async_ kw w) in
  ns_username (client w')
  = (if Py.str_truthy username then username else ns_username (client w))
  ∧ ns_password (client w')
    = (if Py.str_truthy password then password else ns_password (client w))
  ∧ ns_otp_code (client w')
    = (if Py.truthy otp_code then otp_code else ns_otp_code (client w)).
Proof.
  cbv zeta. run. repeat step; cbn; now repeat split.
Qed.

(** With no user name, given or stored, a login is a logout: nothing is
    sent, the authorization header goes and so does the cached base
    path. *)
Lemma login_without_username password otp_code hash_password async_ kw w :
  ns_username (client w) = "" →
  ∃ ns', login "" password otp_code hash_password async_ kw w
         = (Ok tt, {| client := ns'; trace := trace w |})
         ∧ headers ns' = delete "Authorization" (headers (client w))
         ∧ base_path_cache ns' = None.
Proof.
  intros H. run. unfold ns_username in *. cbn [Py.str_truthy]. rewrite H.
  cbn. eexists. split; [reflexivity|]. now split.
Qed.

(** A successful login stores the token of the answer as the
    authorization header. *)
Lemma login_returns_token username password otp_code hash_password
    async_ kw w w' :
  login username password otp_code hash_password async_ kw w = (Ok tt, w') →
  ns_username (client w') ≠ "" →
  ∃ token, headers (client w') = <["Authorization" := token]> (headers (client w)).
Proof.
  run. intros H Hne. unfold ns_username in *.
  repeat step; try discriminate; cbn in *; try congruence; eauto.
  all: exfalso;
    match goal with
    | H : Py.str_truthy ?s = false, Hn : ?s ≠ "" |- _ =>
        destruct s; [now apply Hn | discriminate H]
    end.
Qed.

(** The cached base path is returned without a request. *)
Lemma base_path_cached w v :
  base_path_cache (client w) = Some v → base_path w = (Ok v, w).
Proof. intros H. run. now rewrite H. Qed.

(** Without a cached value the accessor makes exactly one request, the
    identity lookup [GET /api/me]. *)
Lemma base_path_lookup w :
  base_path_cache (client w) = None →
  trace (snd (base_path w))
  = (trace w ++ [EvRequest (build_request (client w) "/api/me" "GET" None
                              false no_kwargs)])%list.
Proof.
  intros H. run. rewrite H. cbn. repeat step; reflexivity.
Qed.

(** A value the accessor returned is the cached one from then on. *)
Lemma base_path_returns_cached w v w' :
  base_path w = (Ok v, w') →
  base_path_cache (client w') = Some v
  ∧ origin (client w') = origin (client w)
  ∧ headers (client w') = headers (client w).
Proof.
  run. intros H. repeat step; try discriminate; cbn; now repeat split.
Qed.

(** A lookup that fails caches nothing. *)
Lemma base_path_raises_uncached w e w' :
  base_path w = (Raise e, w') →
  base_path_cache (client w') = base_path_cache (client w)
  ∧ base_path_cache (client w) = None.
Proof.
  run. intros H. repeat step; try discriminate; cbn; now repeat split.
Qed.

(** *** Attribute assignment *)

Lemma setattr_other attr val w :
  attr ≠ "username" → attr ≠ "password" → attr ≠ "otp_code" →
  setattr attr val w
  = (Raise (TypeError ("can't set attribute: " +:+ Py.repr_name attr)), w).
Proof.
  intros H1 H2 H3. unfold setattr.
  apply String.eqb_neq in H1, H2, H3. rewrite H1, H2, H3.
  reflexivity.
Qed.

Lemma setattr_username val w :
  setattr "username" val w
  = (Raise (TypeError "can't set attribute: 'username'"),
     {| client := set_username (Py.str val) (client w); trace := trace w |}).
Proof. reflexivity. Qed.

(** Assigning the password or the one-time code stores the string form
    and logs in again with the stored credentials; the [TypeError] is
    raised only when that login returns. *)
Lemma setattr_password val w :
  setattr "password" val w
  = match login "" "" (Py.SStr "") true false no_kwargs
            {| client := set_password (Py.str val) (client w);
               trace := trace w |} with
    | (Ok _, w') => (Raise (TypeError "can't set attribute: 'password'"), w')
    | (Raise e, w') => (Raise e, w')
    end.
Proof.
  unfold setattr. cbn [String.eqb Ascii.eqb Bool.eqb].
  unfold bind at 1. unfold bind at 1.
  unfold modify_client, bind at 1, get_client, put_client.
  now destruct (login _ _ _ _ _ _ _) as [[[]|e] w'].
Qed.

Lemma setattr_otp_code val w :
  setattr "otp_code" val w
  = match login "" "" (Py.SStr "") true false no_kwargs
            {| client := set_otp_code (Py.SStr (Py.str val)) (client w);
               trace := trace w |} with
    | (Ok _, w') => (Raise (TypeError "can't set attribute: 'otp_code'"), w')
    | (Raise e, w') => (Raise e, w')
    end.
Proof.
  unfold setattr. cbn [String.eqb Ascii.eqb Bool.eqb].
  unfold bind at 1. unfold bind at 1.
  unfold modify_client, bind at 1, get_client, put_client.
  now destruct (login _ _ _ _ _ _ _) as [[[]|e] w'].
Qed.

(** *** The download URL *)

Lemma get_url_with_base_path path ensure_ascii w b w1 :
  base_path w = (Ok (Py.JStr b), w1) →
  get_url path ensure_ascii w
  = (Ok (origin (client w) +:+ "/d"
         +:+ (let path := if String.eqb b "/" then path else b +:+ path in
              if ensure_ascii then Url.quote path Url.get_url_safe
              else Url.translate path)),
     w1).
Proof.
  intros H. destruct (base_path_returns_cached _ _ _ H) as (Hc & Ho & _).
  unfold get_url. rewrite (bind_ok _ _ _ _ _ H).
  destruct (String.eqb b "/"); cbn [negb].
  - unfold bind, ret, get_client. rewrite Ho. now destruct ensure_ascii.
  - rewrite (bind_ok _ _ _ _ _ (bind_ok _ _ _ _ _ (base_path_cached _ _ Hc))).
    unfold bind, ret, get_client. rewrite Ho. now destruct ensure_ascii.
Qed.

End Session.

(** ** Percent-encoding *)

Section Encoding.

Lemma append_cons (x : ascii) (a b : string) :
  String x a +:+ b = String x (a +:+ b).
Proof. reflexivity. Qed.

Lemma append_assoc (a b c : string) : (a +:+ b) +:+ c = a +:+ (b +:+ c).
Proof.
  induction a as [|x a IH]; [reflexivity|].
  now rewrite !append_cons, IH.
Qed.

Lemma append_nil_r (a : string) : a +:+ "" = a.
Proof.
  induction a as [|x a IH]; [reflexivity|]. now rewrite append_cons, IH.
Qed.

Lemma quote_append (s1 s2 safe : string) :
  Url.quote (s1 +:+ s2) safe = Url.quote s1 safe +:+ Url.quote s2 safe.
Proof.
  induction s1 as [|c s1 IH]; [reflexivity|].
  rewrite append_cons. cbn [Url.quote]. now rewrite IH, append_assoc.
Qed.

Lemma translate_append (s1 s2 : string) :
  Url.translate (s1 +:+ s2) = Url.translate s1 +:+ Url.translate s2.
Proof.
  induction s1 as [|c s1 IH]; [reflexivity|].
  rewrite append_cons. cbn [Url.translate]. now rewrite IH, append_assoc.
Qed.

Lemma quote_char (c : ascii) (safe : string) :
  Url.quote (String c "") safe
  = if Url.always_safe c || Url.in_string c safe then String c ""
    else Url.percent c.
Proof. simpl. unfold Url.quote_byte. now rewrite append_nil_r. Qed.

Lemma translate_char_other (c : ascii) :
  c ≠ "#"%char → c ≠ "?"%char → Url.translate (String c "") = String c "".
Proof.
  intros H1 H2. simpl. unfold Url.translate_char.
  apply Ascii.eqb_neq in H1, H2. now rewrite H1, H2.
Qed.

(** A path without [#] and [?] is left as it is by [translate]. *)
Lemma translate_plain (s : string) :
  Url.in_string "#" s = false → Url.in_string "?" s = false →
  Url.translate s = s.
Proof.
  unfold Url.in_string. induction s as [|c s IH]; [reflexivity|].
  cbn [list_ascii_of_string existsb Url.translate]. intros H1 H2.
  apply orb_false_iff in H1 as [H1 H1'], H2 as [H2 H2'].
  unfold Url.translate_char.
  rewrite (Ascii.eqb_sym c "#"), H1, (Ascii.eqb_sym c "?"), H2.
  rewrite append_cons. now rewrite IH.
Qed.

End Encoding.

(** ** The claims about the session and the download URL *)

Section SessionClaims.
Context `{E : Env}.

(** C3, as the code has it. A login that returns has dropped the cached
    base path; a login that raises has left the authorization header and
    the cached base path as they were, and so has an assignment to
    [username]. With nothing cached, reading [base_path] makes exactly
    one request, the identity lookup, and a value it returned is served
    from the cache afterwards, without a request. Whatever its outcome, a
    login has stored the credentials it was given. *)
Theorem credentials_and_base_path username password otp_code hash_password
    async_ kw (w : World) :
  (∀ w', login username password otp_code hash_password async_ kw w
         = (Ok tt, w') →
         base_path_cache (client w') = None)
  ∧ (∀ e w', login username password otp_code hash_password async_ kw w
             = (Raise e, w') →
             headers (client w') = headers (client w)
             ∧ base_path_cache (client w') = base_path_cache (client w))
  ∧ (∀ val, snd (setattr "username" val w)
            = {| client := set_username (Py.str val) (client w);
                 trace := trace w |})
  ∧ (base_path_cache (client w) = None →
     trace (snd (base_path w))
     = (trace w ++ [EvRequest (build_request (client w) "/api/me" "GET"
                                 None false no_kwargs)])%list)
  ∧ (∀ v w', base_path w = (Ok v, w') → base_path w' = (Ok v, w'))
  ∧ ns_username
      (client (snd (login username password otp_code hash_password async_ kw w)))
    = (if Py.str_truthy username then username else ns_username (client w))
  ∧ ns_password
      (client (snd (login username password otp_code hash_password async_ kw w)))
    = (if Py.str_truthy password then password else ns_password (client w))
  ∧ ns_otp_code
      (client (snd (login username password otp_code hash_password async_ kw w)))
    = (if Py.truthy otp_code then otp_code else ns_otp_code (client w)).
Proof.
  split; [|split; [|split; [|split; [|split]]]];
    [| | | | | apply login_stores_credentials].
  - intros w'. apply login_returns_invalidated.
  - intros e w' H.
    destruct (login_raises_unchanged _ _ _ _ _ _ _ _ _ H) as (H1 & H2 & _).
    now split.
  - intros val. now rewrite setattr_username.
  - apply base_path_lookup.
  - intros v w' H. apply base_path_cached.
    now destruct (base_path_returns_cached _ _ _ H).
Qed.

(** C10, as the code has it. Assigning any attribute other than the three
    credentials raises [TypeError] and changes nothing. Assigning
    [username] stores the string form and raises [TypeError]. Assigning
    [password] or [otp_code] stores the string form and then logs in
    again with the stored credentials: when that login returns the
    [TypeError] follows, and when it raises, its exception is the one
    that surfaces. In both outcomes the stored value is the string
    form. *)
Theorem setattr_outcome attr val (w : World) :
  (attr ≠ "username" → attr ≠ "password" → attr ≠ "otp_code" →
     setattr attr val w
     = (Raise (TypeError ("can't set attribute: " +:+ Py.repr_name attr)), w))
  ∧ setattr "username" val w
    = (Raise (TypeError "can't set attribute: 'username'"),
       {| client := set_username (Py.str val) (client w); trace := trace w |})
  ∧ setattr "password" val w
    = match login "" "" (Py.SStr "") true false no_kwargs
              {| client := set_password (Py.str val) (client w);
                 trace := trace w |} with
      | (Ok _, w') => (Raise (TypeError "can't set attribute: 'password'"), w')
      | (Raise e, w') => (Raise e, w')
      end
  ∧ ns_password (client (snd (setattr "password" val w))) = Py.str val
  ∧ setattr "otp_code" val w
    = match login "" "" (Py.SStr "") true false no_kwargs
              {| client := set_otp_code (Py.SStr (Py.str val)) (client w);
                 trace := trace w |} with
      | (Ok _, w') => (Raise (TypeError "can't set attribute: 'otp_code'"), w')
      | (Raise e, w') => (Raise e, w')
      end
  ∧ ns_otp_code (client (snd (setattr "otp_code" val w)))
    = Py.SStr (Py.str val).
Proof.
  split; [apply setattr_other|].
  split; [apply setattr_username|].
  split; [apply setattr_password|].
  split; [|split; [apply setattr_otp_code|]].
  - rewrite setattr_password.
    pose proof (login_stores_credentials "" "" (Py.SStr "") true false
                  no_kwargs
                  {| client := set_password (Py.str val) (client w);
                     trace := trace w |}) as (_ & Hp & _).
    cbn [Py.str_truthy] in Hp.
    destruct (login _ _ _ _ _ _ _) as [[[]|e] w']; exact Hp.
  - rewrite setattr_otp_code.
    pose proof (login_stores_credentials "" "" (Py.SStr "") true false
                  no_kwargs
                  {| client := set_otp_code (Py.SStr (Py.str val)) (client w);
                     trace := trace w |}) as (_ & _ & Ho).
    cbn [Py.truthy Py.str_truthy] in Ho.
    destruct (login _ _ _ _ _ _ _) as [[[]|e] w']; exact Ho.
Qed.

(** C9, as the code has it. With the base path [b] of the account (read
    from the cache or looked up), the URL is the origin, then [/d], then
    the encoded path, where the path is prefixed with [b] unless [b] is
    the root [/]. With [ensure_ascii] the encoding keeps letters, digits,
    [_.-~] and the characters of [@[]:/!$&'()*+,;=] and writes every
    other byte as [%XX]; without it, [#] becomes [%23], [?] becomes
    [%3F] and every other character is kept. *)
Theorem get_url_result path ensure_ascii (w : World) b w1 :
  base_path w = (Ok (Py.JStr b), w1) →
  get_url path ensure_ascii w
  = (Ok (origin (client w) +:+ "/d"
         +:+ (if ensure_ascii
              then Url.quote (if String.eqb b "/" then path else b +:+ path)
                     Url.get_url_safe
              else Url.translate
                     (if String.eqb b "/" then path else b +:+ path))),
     w1)
  ∧ (∀ s1 s2, Url.quote (s1 +:+ s2) Url.get_url_safe
              = Url.quote s1 Url.get_url_safe +:+ Url.quote s2 Url.get_url_safe)
  ∧ (∀ c, Url.quote (String c "") Url.get_url_safe
          = if Url.always_safe c || Url.in_string c Url.get_url_safe
            then String c "" else Url.percent c)
  ∧ (∀ s1 s2, Url.translate (s1 +:+ s2)
              = Url.translate s1 +:+ Url.translate s2)
  ∧ Url.translate "#" = "%23"
  ∧ Url.translate "?" = "%3F"
  ∧ (∀ c, c ≠ "#"%char → c ≠ "?"%char →
          Url.translate (String c "") = String c "").
Proof.
  intros H. split.
  - rewrite (get_url_with_base_path _ _ _ _ _ H). cbv zeta.
    now destruct ensure_ascii.
  - split; [intros; apply quote_append|].
    split; [intros; apply quote_char|].
    split; [intros; apply translate_append|].
    split; [reflexivity|]. split; [reflexivity|].
    apply translate_char_other.
Qed.

End SessionClaims.

(** ** The claims at work on the test double *)

(** Bytes 2 to 6 of the resource: one request, [Range: bytes=2-6]. *)
Lemma read_bytes_forward_range_demo :
  @read_bytes Demo.env Demo.file_url 2 (Some 7%Z) false no_kwargs
    (Demo.world Demo.alice)
  = (Ok (VBytes "0123456789"),
     after (Demo.world Demo.alice)
       [EvRequest (data_request Demo.alice Demo.file_url false no_kwargs "2-6")]).
Proof.
  destruct (proj1 (@read_bytes_forward_range Demo.env Demo.file_url 2 7 false
                     no_kwargs (Demo.world Demo.alice) ltac:(lia)) ltac:(lia))
    as (rq & h & -> & H & _).
  rewrite H. reflexivity.
Defined.

(** [read_bytes(url, start=5, stop=3)] sends nothing and returns the empty
    byte string, where one request for [5-2] was claimed; and
    [read_bytes(url, start=0)], with [stop] left at [None], raises before
    anything is sent. *)
Lemma read_bytes_backward_or_open :
  @read_bytes Demo.env Demo.file_url 5 (Some 3%Z) false no_kwargs
    (Demo.world Demo.alice)
  = (Ok (VBytes ""), Demo.world Demo.alice)
  ∧ trace (snd (@read_bytes Demo.env Demo.file_url 5 (Some 3%Z) false
                  no_kwargs (Demo.world Demo.alice)))
    ≠ [EvRequest (data_request Demo.alice Demo.file_url false no_kwargs "5-2")]
  ∧ @read_bytes Demo.env Demo.file_url 0 None false no_kwargs
      (Demo.world Demo.alice)
    = (Raise (TypeError "'>=' not supported between instances of 'int' and 'NoneType'"),
       Demo.world Demo.alice).
Proof.
  split; [reflexivity|]. split; [discriminate | reflexivity].
Qed.

(** [read_bytes(url, start=5, stop=3)] is empty and sends nothing;
    [read_bytes(url, start=-3, stop=-7)], whose bounds would be 97 and 93
    against the resource of 100 bytes, raises instead of returning the empty
    byte string. *)
Lemma read_bytes_empty_range_demo :
  @read_bytes Demo.env Demo.file_url 5 (Some 3%Z) false no_kwargs
    (Demo.world Demo.alice)
  = (Ok (VBytes ""), Demo.world Demo.alice)
  ∧ fst (@read_bytes Demo.env Demo.file_url (-3) (Some (-7)%Z) false no_kwargs
           (Demo.world Demo.alice))
    = Raise (NameError "get_total_length").
Proof.
  split.
  - apply (proj1 (proj2 (@read_bytes_empty_range Demo.env Demo.file_url 5
                           (Some 3%Z) false no_kwargs (Demo.world Demo.alice)))
             3%Z eq_refl).
    lia.
  - apply (proj2 (proj2 (@read_bytes_empty_range Demo.env Demo.file_url (-3)
                           (Some (-7)%Z) false no_kwargs
                           (Demo.world Demo.alice)))
             Demo.probe_response); reflexivity.
Defined.

(** [read_bytes(url, start=-10)] against the resource of 100 bytes: the
    probe is sent and released, and the call raises; the claimed request
    for [90-] is never made. *)
Lemma read_bytes_relative_bounds_demo :
  @read_bytes Demo.env Demo.file_url (-10) None false no_kwargs
    (Demo.world Demo.alice)
  = (Raise (NameError "get_total_length"),
     after (Demo.world Demo.alice)
       [EvRequest (probe_request Demo.alice Demo.file_url false no_kwargs);
        EvClose Demo.probe_response]).
Proof.
  apply (@read_bytes_relative_bounds Demo.env Demo.file_url (-10) None false
           no_kwargs (Demo.world Demo.alice) Demo.probe_response).
  - left. lia.
  - reflexivity.
Defined.

(** The same call in asynchronous mode: the response is released with
    [aclose], and the failure is the [NameError], not [OSError(ESPIPE)]. *)
Lemma probe_response_released_demo :
  @read_bytes Demo.env Demo.file_url (-1) (Some (-5)%Z) true no_kwargs
    (Demo.world Demo.alice)
  = (Raise (NameError "get_total_length"),
     after (Demo.world Demo.alice)
       [EvRequest (probe_request Demo.alice Demo.file_url true no_kwargs);
        EvAclose Demo.probe_response]).
Proof.
  apply (@probe_response_released Demo.env (@module_globals Demo.env)
           Demo.file_url (-1) (Some (-5)%Z) true no_kwargs
           (Demo.world Demo.alice) Demo.probe_response);
    reflexivity.
Defined.

(** [read_block(url, size=0, offset=10)]: empty, and nothing is sent; the
    same call with [async_=True] cannot be awaited; and a block of four
    bytes at offset 10 is the read of 10 to 14. *)
Lemma read_block_demo :
  (@read_block Demo.env Demo.file_url 0 10 false no_kwargs
     (Demo.world Demo.alice)
   = (Ok (VBytes ""), Demo.world Demo.alice)
   ∧ @read_block Demo.env Demo.file_url 0 10 true no_kwargs
       (Demo.world Demo.alice)
     = (Raise (TypeError "object async_generator can't be used in 'await' expression"),
        Demo.world Demo.alice))
  ∧ @read_block Demo.env Demo.file_url 4 10 false no_kwargs
      (Demo.world Demo.alice)
    = @read_bytes Demo.env Demo.file_url 10 (Some 14%Z) false no_kwargs
        (Demo.world Demo.alice).
Proof.
  split.
  - apply (@read_block_as_read_bytes Demo.env Demo.file_url 0 10 false
             no_kwargs (Demo.world Demo.alice)). lia.
  - apply (@read_block_as_read_bytes Demo.env Demo.file_url 4 10 false
             no_kwargs (Demo.world Demo.alice)). lia.
Defined.

(** A login with the right password drops the cached base path. *)
Lemma credentials_and_base_path_demo :
  base_path_cache
    (client (snd (@login Demo.env "" "secret" (Py.SStr "") true false
                    no_kwargs (Demo.world Demo.alice))))
  = None.
Proof.
  apply (proj1 (@credentials_and_base_path Demo.env "" "secret" (Py.SStr "")
                  true false no_kwargs (Demo.world Demo.alice))).
  reflexivity.
Defined.

(** A login with a wrong password fails, has replaced the stored password,
    and has not invalidated the cached base path: the next access is
    served from the cache, without an identity lookup. Nor does an
    assignment to [username] invalidate it. *)
Lemma failed_login_keeps_base_path :
  fst Demo.failed_login
  = Raise (OSError OSError_ Py.EINVAL (ArgEnvelope Demo.rejected))
  ∧ ns_password (client (snd Demo.failed_login)) = "wrong"
  ∧ base_path_cache (client (snd Demo.failed_login)) = Some (Py.JStr "/home")
  ∧ @base_path Demo.env (snd Demo.failed_login)
    = (Ok (Py.JStr "/home"), snd Demo.failed_login)
  ∧ base_path_cache
      (client (snd (@setattr Demo.env "username" (Py.SStr "bob")
                      (Demo.world Demo.alice))))
    = Some (Py.JStr "/home").
Proof. repeat split. Qed.

(** Assigning to an attribute that is not a credential. *)
Lemma setattr_outcome_demo :
  @setattr Demo.env "origin" (Py.SStr "http://example.org")
    (Demo.world Demo.alice)
  = (Raise (TypeError "can't set attribute: 'origin'"), Demo.world Demo.alice).
Proof.
  apply (@setattr_outcome Demo.env "origin" (Py.SStr "http://example.org")
           (Demo.world Demo.alice)); discriminate.
Defined.

(** Assigning a wrong password: what surfaces is the failure of the
    re-login, an [OSError], and not a [TypeError]. *)
Lemma setattr_password_surfaces_login_failure :
  fst Demo.password_assignment
  = Raise (OSError OSError_ Py.EINVAL (ArgEnvelope Demo.rejected))
  ∧ (∀ msg, fst Demo.password_assignment ≠ Raise (TypeError msg))
  ∧ ns_password (client (snd Demo.password_assignment)) = "wrong".
Proof. repeat split. discriminate. Qed.

(** The download URL of an account whose base path is [/home]. *)
Lemma get_url_result_demo :
  @get_url Demo.env "/a b#?.txt" true (Demo.world Demo.alice)
  = (Ok "http://localhost:5244/d/home/a%20b%23%3F.txt", Demo.world Demo.alice).
Proof.
  apply (@get_url_result Demo.env "/a b#?.txt" true (Demo.world Demo.alice)
           "/home" (Demo.world Demo.alice)).
  reflexivity.
Defined.

(** For an account whose base path is the root, the path is not prefixed:
    the URL is not the origin, [/d] and the encoding of [base_path + path]. *)
Lemma get_url_root_base_path :
  @get_url Demo.env "/a.txt" true (Demo.world Demo.admin)
  = (Ok "http://localhost:5244/d/a.txt", Demo.world Demo.admin)
  ∧ fst (@get_url Demo.env "/a.txt" true (Demo.world Demo.admin))
    ≠ Ok (origin Demo.admin +:+ "/d"
          +:+ Url.quote ("/" +:+ "/a.txt") Url.get_url_safe).
Proof. split; [reflexivity | discriminate]. Qed.

(** * Further properties of the client *)

(** ** Requests and the plain endpoints *)

Section Requests.
Context `{E : Env}.

Implicit Types (w : World) (kw : Kwargs) (ns : Client).

Lemma startswith_cons_ne (c d : ascii) (s pre : string) :
  c ≠ d → Py.startswith (String c s) (String d pre) = false.
Proof.
  intros H. unfold Py.startswith. simpl.
  destruct (ascii_dec d c) as [->|]; [now destruct H | reflexivity].
Qed.

(** X1. A path is completed with the origin and exactly one slash, so a path
    names the same request with and without its leading slash; an absolute
    [http://] or [https://] URL is sent as it is. *)
Theorem request_url_completion ns (url method : string) payload async_ kw :
  (Py.startswith url "http://" = false →
   Py.startswith url "https://" = false →
   Py.startswith url "/" = false →
   build_request ns url method payload async_ kw
   = build_request ns ("/" +:+ url) method payload async_ kw
   ∧ rq_url (build_request ns url method payload async_ kw)
     = origin ns +:+ "/" +:+ url)
  ∧ (Py.startswith url "http://" || Py.startswith url "https://" = true →
     rq_url (build_request ns url method payload async_ kw) = url).
Proof.
  split.
  - intros H1 H2 H3. unfold build_request.
    rewrite H1, H2, H3.
    change ("/" +:+ url) with (String "/" url).
    rewrite (startswith_cons_ne "/" "h") by discriminate.
    rewrite (startswith_cons_ne "/" "h") by discriminate.
    replace (Py.startswith (String "/" url) "/") with true
      by (unfold Py.startswith; simpl; now destruct url).
    now split.
  - intros H. unfold build_request. cbn [rq_url]. now rewrite H.
Qed.

(** X2. The endpoints that fix their method positionally ([auth_me],
    [public_settings], [public_ping]) send one GET; handed a [method]
    keyword as well, they raise [TypeError] and send nothing. *)
Theorem fixed_method_endpoints async_ kw w :
  (kw_method kw = None →
   auth_me async_ kw w
   = send (build_request (client w) "/api/me" "GET" None async_ kw) w
   ∧ public_settings async_ kw w
     = send (build_request (client w) "/api/public/settings" "GET" None
               async_ kw) w
   ∧ public_ping async_ kw w
     = send (build_request (client w) "/ping" "GET" None async_ kw) w)
  ∧ (kw_method kw ≠ None →
     ∃ msg, auth_me async_ kw w = (Raise (TypeError msg), w)
            ∧ public_settings async_ kw w = (Raise (TypeError msg), w)
            ∧ public_ping async_ kw w = (Raise (TypeError msg), w)).
Proof.
  unfold auth_me, public_settings, public_ping, request. split.
  - intros ->. now repeat split.
  - intros H. destruct (kw_method kw) as [m|]; [|now destruct H].
    eexists. repeat split.
Qed.

(** *** What an operation leaves alone *)

Lemma keeps_ret {A} (a : A) : keeps_client (ret a).
Proof. now intros w. Qed.

Lemma keeps_raise {A} (e : exn) : keeps_client (@raise A e).
Proof. now intros w. Qed.

Lemma keeps_lift {A} (r : result A) : keeps_client (lift r).
Proof. now intros w. Qed.

Lemma keeps_get_client : keeps_client get_client.
Proof. now intros w. Qed.

Lemma keeps_emit ev : keeps_client (emit ev).
Proof. now intros w. Qed.

Lemma keeps_send rq : keeps_client (send rq).
Proof. now intros w. Qed.

Lemma keeps_bind {A B} (m : M A) (k : A → M B) :
  keeps_client m → (∀ a, keeps_client (k a)) → keeps_client (bind m k).
Proof.
  intros Hm Hk w. unfold bind. specialize (Hm w).
  destruct (m w) as [[a|e] w1]; cbn [snd] in *; [|exact Hm].
  now rewrite Hk.
Qed.

Lemma keeps_finally {A} (body : M A) (fin : M unit) :
  keeps_client body → keeps_client fin → keeps_client (finally body fin).
Proof.
  intros Hb Hf w. unfold finally. specialize (Hb w).
  destruct (body w) as [r w1]. specialize (Hf w1).
  destruct (fin w1) as [[[]|e] w2]; cbn [snd] in *; congruence.
Qed.

Lemma keeps_request url method payload async_ kw :
  keeps_client (request url method payload async_ kw).
Proof.
  unfold request.
  destruct method, (kw_method kw);
    try apply keeps_raise;
    (apply keeps_bind; [apply keeps_get_client | intros; apply keeps_send]).
Qed.

Lemma keeps_read_bytes_range url range async_ kw :
  keeps_client (read_bytes_range url range async_ kw).
Proof. apply keeps_request. Qed.

Lemma keeps_finish_range start stop : keeps_client (finish_range start stop).
Proof.
  unfold finish_range. destruct stop as [s|]; [|apply keeps_raise].
  destruct (start >=? s)%Z; apply keeps_ret.
Qed.

Lemma keeps_get_bytes_range_in globals url async_ kw start stop :
  keeps_client (get_bytes_range_in globals url async_ kw start stop).
Proof.
  unfold get_bytes_range_in.
  destruct (needs_probe start stop); [|apply keeps_finish_range].
  apply keeps_bind; [apply keeps_request|]. intros resp.
  apply keeps_bind.
  - apply keeps_finally.
    + apply keeps_bind.
      * unfold call_get_total_length.
        destruct (globals _); [apply keeps_ret | apply keeps_raise].
      * intros [length|]; [apply keeps_ret | apply keeps_raise].
    + unfold close_response.
      destruct resp; try apply keeps_raise. apply keeps_emit.
  - intros length. cbv zeta.
    destruct stop as [s|]; [apply keeps_finish_range | apply keeps_ret].
Qed.

Lemma keeps_read_bytes_in globals url start stop async_ kw :
  keeps_client (read_bytes_in globals url start stop async_ kw).
Proof.
  unfold read_bytes_in. apply keeps_bind; [apply keeps_get_bytes_range_in|].
  intros [range|]; [|apply keeps_ret].
  destruct (negb _); [apply keeps_ret | apply keeps_read_bytes_range].
Qed.

Lemma keeps_read_block url size offset async_ kw :
  keeps_client (read_block url size offset async_ kw).
Proof.
  unfold read_block. destruct (size <=? 0)%Z; [|apply keeps_read_bytes_in].
  destruct async_; [apply keeps_raise | apply keeps_ret].
Qed.

Lemma keeps_get_base_path async_ : keeps_client (get_base_path async_).
Proof.
  unfold get_base_path, auth_me.
  apply keeps_bind; [apply keeps_request|]. intros resp.
  apply keeps_bind; [apply keeps_lift|]. intros d. apply keeps_lift.
Qed.

(** X3. No request and no read writes to the session: whatever their outcome,
    [request], the plain endpoints, the identity lookup and the ranged
    reads leave the origin, the credentials, the shared headers (the
    authorization token among them) and the cached base path as they
    were. *)
Theorem reads_keep_session :
  (∀ url method payload async_ kw,
     keeps_client (request url method payload async_ kw))
  ∧ (∀ payload async_ kw,
       keeps_client (fs_list payload async_ kw)
       ∧ keeps_client (fs_get payload async_ kw)
       ∧ keeps_client (auth_login payload async_ kw)
       ∧ keeps_client (public_settings async_ kw)
       ∧ keeps_client (public_ping async_ kw))
  ∧ (∀ async_, keeps_client (get_base_path async_))
  ∧ (∀ url range async_ kw, keeps_client (read_bytes_range url range async_ kw))
  ∧ (∀ url start stop async_ kw,
       keeps_client (read_bytes url start stop async_ kw))
  ∧ (∀ url size offset async_ kw,
       keeps_client (read_block url size offset async_ kw)).
Proof.
  split; [exact keeps_request|].
  split; [intros; repeat split; apply keeps_request|].
  split; [exact keeps_get_base_path|].
  split; [exact keeps_read_bytes_range|].
  split; [intros; apply keeps_read_bytes_in | exact keeps_read_block].
Qed.

End Requests.

(** ** Logging in and out *)

Section Login.
Context `{E : Env}.

Implicit Types (w : World) (kw : Kwargs) (ns : Client).

Lemma bind_assoc {A B C} (m : M A) (k1 : A → M B) (k2 : B → M C) w :
  bind (bind m k1) k2 w = bind m (λ a, bind (k1 a) k2) w.
Proof. unfold bind. now destruct (m w) as [[a|e] w1]. Qed.

Lemma bind_lift {A B} (r : result A) (k : A → M B) w :
  bind (lift r) k w
  = match r with Ok a => k a w | Raise e => (Raise e, w) end.
Proof. reflexivity. Qed.

Lemma bind_request {B} url payload async_ kw (k : value → M B) w :
  bind (request url None payload async_ kw) k w
  = match httpx_request (trace w)
            (build_request (client w) url (default "POST" (kw_method kw))
               payload async_ kw) with
    | Ok resp =>
        k resp
          (after w [EvRequest (build_request (client w) url
                                 (default "POST" (kw_method kw))
                                 payload async_ kw)])
    | Raise e =>
        (Raise e,
         after w [EvRequest (build_request (client w) url
                               (default "POST" (kw_method kw))
                               payload async_ kw)])
    end.
Proof.
  unfold bind at 1. rewrite request_default_method. unfold send.
  now destruct (httpx_request _ _).
Qed.

(** [login], outcome by outcome. *)
Lemma login_outcomes user pass otp hash_password async_ kw w :
  login user pass otp hash_password async_ kw w
  = let ns := with_credentials user pass otp (client w) in
    if Py.str_truthy (ns_username ns) then
      let rq := login_request ns hash_password async_ kw in
      let sent := {| client := ns; trace := trace w ++ [EvRequest rq] |} in
      match httpx_request (trace w) rq with
      | Raise e => (Raise e, sent)
      | Ok resp =>
          match resp_code resp with
          | Raise e => (Raise e, sent)
          | Ok code =>
              if negb ((200 <=? code) && (code <? 300))%Z
              then (Raise (OSError OSError_ Py.EINVAL (exc_arg_of resp)), sent)
              else
                match resp_data resp with
                | Raise e => (Raise e, sent)
                | Ok data =>
                    match subscript data "token" with
                    | Raise e => (Raise e, sent)
                    | Ok token =>
                        (Ok tt,
                         {| client :=
                              set_base_path_cache None
                                (set_headers
                                   (<["Authorization" := token]> (headers ns))
                                   ns);
                            trace := trace w ++ [EvRequest rq] |})
                    end
                end
          end
      end
    else
      (Ok tt,
       {| client :=
            set_base_path_cache None
              (set_headers (delete "Authorization" (headers ns)) ns);
          trace := trace w |}).
Proof.
  cbv zeta. unfold login, with_credentials, login_request.
  unfold ns_username, ns_password, ns_otp_code.
  cbn [username password otp_code headers set_username set_password
       set_otp_code].
  unfold bind at 1, get_client at 1. cbn [client].
  unfold bind at 1, put_client at 1. cbn [client trace].
  destruct (Py.str_truthy _) eqn:Huser at 1.
  2:{ rewrite Huser. reflexivity. }
  rewrite Huser. rewrite bind_assoc.
  destruct hash_password; unfold auth_login_hash, auth_login; cbv iota;
    rewrite bind_request; cbn [client trace after];
    (destruct (httpx_request _ _) as [resp|e]; [|reflexivity]);
    rewrite bind_assoc, bind_lift;
    (destruct (resp_code resp) as [code|e]; [|reflexivity]);
    (destruct (negb _); [reflexivity|]);
    rewrite bind_assoc, bind_lift;
    (destruct (resp_data resp) as [d|e]; [|reflexivity]);
    rewrite bind_assoc, bind_lift;
    destruct (subscript d "token") as [token|e]; reflexivity.
Qed.

Lemma with_credentials_none ns :
  with_credentials "" "" (Py.SStr "") ns = ns.
Proof. now destruct ns. Qed.

Lemma login_request_url ns hash_password async_ kw :
  rq_url (login_request ns hash_password async_ kw)
  = origin ns +:+ (if hash_password then "/api/auth/login/hash"
                   else "/api/auth/login").
Proof. now destruct hash_password. Qed.

(** X4. A login with a user name (given, or stored) sends exactly one request,
    whatever comes of it: a POST, unless the caller named another method,
    to [/api/auth/login/hash] with the digest of the salted password when
    [hash_password] is set, and to [/api/auth/login] with the password
    itself otherwise, for the credentials as they now are stored. *)
Theorem login_sends_one_request user pass otp hash_password async_ kw w :
  Py.str_truthy (ns_username (with_credentials user pass otp (client w)))
  = true →
  trace (snd (login user pass otp hash_password async_ kw w))
  = (trace w
     ++ [EvRequest (login_request (with_credentials user pass otp (client w))
                      hash_password async_ kw)])%list
  ∧ rq_url (login_request (with_credentials user pass otp (client w))
              hash_password async_ kw)
    = origin (client w) +:+ (if hash_password then "/api/auth/login/hash"
                             else "/api/auth/login")
  ∧ rq_method (login_request (with_credentials user pass otp (client w))
                 hash_password async_ kw)
    = default "POST" (kw_method kw)
  ∧ rq_json (login_request (with_credentials user pass otp (client w))
               hash_password async_ kw)
    = Some (Py.JObj
              [("username",
                Py.JStr (if Py.str_truthy user then user
                         else ns_username (client w)));
               ("password",
                Py.JStr
                  (if hash_password
                   then sha256_hexdigest
                          ((if Py.str_truthy pass then pass
                            else ns_password (client w)) +:+ login_salt)
                   else if Py.str_truthy pass then pass
                        else ns_password (client w)));
               ("otp_code",
                json_of_scalar (if Py.truthy otp then otp
                                else ns_otp_code (client w)))]).
Proof.
  intros H. split; [|split; [|split]].
  - rewrite login_outcomes. cbv zeta. rewrite H.
    destruct (httpx_request _ _) as [resp|e]; [|reflexivity].
    destruct (resp_code resp) as [code|e]; [|reflexivity].
    destruct (negb _); [reflexivity|].
    destruct (resp_data resp) as [d|e]; [|reflexivity].
    destruct (subscript d "token"); reflexivity.
  - now rewrite login_request_url.
  - reflexivity.
  - reflexivity.
Qed.


(** X6. The ways a login fails. A refusal (a code outside [200,300)) raises
    [OSError(EINVAL)] with the envelope; a failure of the transport comes
    through as it is; an acceptance without a token fails on the missing
    key. In each case the request has been sent and the credentials are
    stored, and the headers and the cached base path are those from
    before. *)
Theorem login_failures user pass otp hash_password async_ kw w :
  Py.str_truthy (ns_username (with_credentials user pass otp (client w)))
  = true →
  (∀ e, httpx_request (trace w)
          (login_request (with_credentials user pass otp (client w))
             hash_password async_ kw)
        = Ok (VEnvelope e) →
        ¬ (200 ≤ code e < 300)%Z →
        login user pass otp hash_password async_ kw w
        = (Raise (OSError OSError_ Py.EINVAL (ArgEnvelope e)),
           {| client := with_credentials user pass otp (client w);
              trace := trace w
                       ++ [EvRequest
                             (login_request
                                (with_credentials user pass otp (client w))
                                hash_password async_ kw)] |}))
  ∧ (∀ ex, httpx_request (trace w)
             (login_request (with_credentials user pass otp (client w))
                hash_password async_ kw)
           = Raise ex →
           login user pass otp hash_password async_ kw w
           = (Raise ex,
              {| client := with_credentials user pass otp (client w);
                 trace := trace w
                          ++ [EvRequest
                                (login_request
                                   (with_credentials user pass otp (client w))
                                   hash_password async_ kw)] |}))
  ∧ (∀ e ex, httpx_request (trace w)
               (login_request (with_credentials user pass otp (client w))
                  hash_password async_ kw)
             = Ok (VEnvelope e) →
             (200 ≤ code e < 300)%Z →
             subscript (data e) "token" = Raise ex →
             login user pass otp hash_password async_ kw w
             = (Raise ex,
                {| client := with_credentials user pass otp (client w);
                   trace := trace w
                            ++ [EvRequest
                                  (login_request
                                     (with_credentials user pass otp (client w))
                                     hash_password async_ kw)] |})).
Proof.
  intros Hu. split; [|split].
  - intros e Hr Hout. rewrite login_outcomes. cbv zeta. rewrite Hu, Hr.
    cbn [resp_code exc_arg_of]. now rewrite (check_code_outside e Hout).
  - intros ex Hr. rewrite login_outcomes. cbv zeta. now rewrite Hu, Hr.
  - intros e ex Hr [Hlo Hhi] Ht. rewrite login_outcomes. cbv zeta.
    rewrite Hu, Hr. cbn [resp_code resp_data].
    apply Z.leb_le in Hlo. apply Z.ltb_lt in Hhi. now rewrite Hlo, Hhi, Ht.
Qed.


(** X8. The user name assigned to the attribute is the one the next login
    uses: after [client.username = val] (which raises [TypeError]), a
    [login()] without arguments sends its one request for [str(val)]. *)
Theorem assigned_username_is_used val hash_password async_ kw w :
  Py.str_truthy (Py.str val) = true →
  trace (snd (login "" "" (Py.SStr "") hash_password async_ kw
                (snd (setattr "username" val w))))
  = (trace w
     ++ [EvRequest (login_request (set_username (Py.str val) (client w))
                      hash_password async_ kw)])%list
  ∧ ∃ pw otp,
      rq_json (login_request (set_username (Py.str val) (client w))
                 hash_password async_ kw)
      = Some (Py.JObj [("username", Py.JStr (Py.str val));
                       ("password", pw); ("otp_code", otp)]).
Proof.
  intros H. rewrite setattr_username. cbn [snd]. split.
  - rewrite login_outcomes. cbv zeta. cbn [client trace].
    rewrite with_credentials_none.
    change (ns_username (set_username (Py.str val) (client w)))
      with (Py.str val).
    rewrite H.
    destruct (httpx_request _ _) as [resp|e]; [|reflexivity].
    destruct (resp_code resp) as [code|e]; [|reflexivity].
    destruct (negb _); [reflexivity|].
    destruct (resp_data resp) as [d|e]; [|reflexivity].
    destruct (subscript d "token"); reflexivity.
  - eexists. eexists. reflexivity.
Qed.

(** X9. A one-time code given to [login] is stored as it is given, and goes
    into the request as it is: an integer stays an integer (a JSON
    number), and the integer 0, like the empty string, counts as no code
    and leaves the stored one. Assigned to the attribute, the same integer
    is stored as its decimal string. *)
Theorem otp_code_forms user pass (n : Z) hash_password async_ kw w :
  (n ≠ 0%Z →
   ns_otp_code (client (snd (login user pass (Py.SInt n) hash_password
                               async_ kw w)))
   = Py.SInt n
   ∧ ∃ u p,
       rq_json (login_request (with_credentials user pass (Py.SInt n) (client w))
                  hash_password async_ kw)
       = Some (Py.JObj [("username", u); ("password", p);
                        ("otp_code", Py.JInt n)]))
  ∧ ns_otp_code (client (snd (login user pass (Py.SInt 0) hash_password
                                async_ kw w)))
    = ns_otp_code (client w)
  ∧ ns_otp_code (client (snd (setattr "otp_code" (Py.SInt n) w)))
    = Py.SStr (Py.fmt_int n).
Proof.
  split; [|split].
  - intros Hn.
    pose proof (login_stores_credentials user pass (Py.SInt n) hash_password
                  async_ kw w) as (_ & _ & Ho).
    assert (Py.truthy (Py.SInt n) = true) as Ht.
    { cbn. apply negb_true_iff. now apply Z.eqb_neq. }
    rewrite Ht in Ho. split; [exact Ho|].
    eexists. eexists. unfold login_request, with_credentials, ns_otp_code.
    cbn [rq_json build_request otp_code set_otp_code]. rewrite Ht.
    reflexivity.
  - now pose proof (login_stores_credentials user pass (Py.SInt 0)
                      hash_password async_ kw w) as (_ & _ & Ho).
  - rewrite setattr_otp_code.
    pose proof (login_stores_credentials "" "" (Py.SStr "") true false
                  no_kwargs
                  {| client := set_otp_code (Py.SStr (Py.str (Py.SInt n)))
                                 (client w);
                     trace := trace w |}) as (_ & _ & Ho).
    cbn [Py.truthy Py.str_truthy] in Ho.
    destruct (login _ _ _ _ _ _ _) as [[[]|e] w']; exact Ho.
Qed.

(** X10. Construction. Without a user name nothing is sent and the client
    starts logged out, with the default headers and no cached base path.
    With a user name the constructor is a login with the hashed password:
    it sends exactly that one request, and it fails when the login
    fails. *)
Theorem init_logs_in complete_url origin0 user pass otp history :
  (Py.str_truthy user = false →
   init complete_url origin0 user pass otp history
   = (Ok tt,
      {| client := {| origin := complete_url origin0; username := user;
                      password := pass; otp_code := otp;
                      headers := default_headers;
                      base_path_cache := None |};
         trace := history |})
   ∧ default_headers !! "Authorization" = None)
  ∧ (Py.str_truthy user = true →
     trace (snd (init complete_url origin0 user pass otp history))
     = (history
        ++ [EvRequest
              (login_request
                 {| origin := complete_url origin0; username := user;
                    password := pass; otp_code := otp;
                    headers := default_headers;
                    base_path_cache := None |}
                 true false no_kwargs)])%list
     ∧ (∀ e, httpx_request history
               (login_request
                  {| origin := complete_url origin0; username := user;
                     password := pass; otp_code := otp;
                     headers := default_headers;
                     base_path_cache := None |}
                  true false no_kwargs)
             = Ok (VEnvelope e) →
             ¬ (200 ≤ code e < 300)%Z →
             fst (init complete_url origin0 user pass otp history)
             = Raise (OSError OSError_ Py.EINVAL (ArgEnvelope e)))).
Proof.
  unfold init. split; intros H; rewrite H.
  - split; reflexivity.
  - rewrite login_outcomes. cbv zeta. cbn [client trace].
    rewrite with_credentials_none.
    unfold ns_username at 1 2. cbn [username]. rewrite H.
    split.
    + destruct (httpx_request _ _) as [resp|e]; [|reflexivity].
      destruct (resp_code resp) as [code|e]; [|reflexivity].
      destruct (negb _); [reflexivity|].
      destruct (resp_data resp) as [d|e]; [|reflexivity].
      destruct (subscript d "token"); reflexivity.
    + intros e Hr Hout. rewrite Hr. cbn [resp_code exc_arg_of].
      now rewrite (check_code_outside e Hout).
Qed.

End Login.

(** ** The base path and the download URL *)

Section BasePath.
Context `{E : Env}.

Implicit Types (w : World) (kw : Kwargs) (ns : Client).

(** X11. The identity lookup does not look at the code of the answer: its
    result is [data["base_path"]] of whatever envelope came back, so an
    error envelope that carries a base path is accepted (and then cached
    by the accessor), and one without data fails on the subscript rather
    than as a refused call. *)
Theorem identity_lookup_unvalidated async_ w e :
  httpx_request (trace w) (lookup_request (client w) async_)
  = Ok (VEnvelope e) →
  get_base_path async_ w
  = (subscript (data e) "base_path",
     after w [EvRequest (lookup_request (client w) async_)])
  ∧ (async_ = false → base_path_cache (client w) = None →
     ∀ v, subscript (data e) "base_path" = Ok v →
          fst (base_path w) = Ok v
          ∧ base_path_cache (client (snd (base_path w))) = Some v).
Proof.
  intros Hr.
  assert (get_base_path async_ w
          = (subscript (data e) "base_path",
             after w [EvRequest (lookup_request (client w) async_)])) as Hg.
  { unfold get_base_path, auth_me, request. cbn [no_kwargs kw_method].
    unfold bind at 1. unfold bind at 1, get_client, send.
    fold (lookup_request (client w) async_).
    rewrite Hr. unfold bind, lift. cbn [resp_data].
    now destruct (subscript (data e) "base_path"). }
  split; [exact Hg|].
  intros -> Hc v Hv. rewrite Hv in Hg.
  assert (base_path w
          = (Ok v,
             {| client := set_base_path_cache (Some v) (client w);
                trace := trace w
                         ++ [EvRequest (lookup_request (client w) false)] |}))
    as Hb.
  { unfold base_path. unfold bind at 1, get_client. cbn [client].
    rewrite Hc. now rewrite (bind_ok _ _ _ _ _ Hg). }
  rewrite Hb. now split.
Qed.

(** X12. A lookup that fails caches nothing: the one request of the failed
    access has been made, and the next access makes the request again. *)
Theorem failed_lookup_is_retried w ex w' :
  base_path w = (Raise ex, w') →
  base_path_cache (client w') = None
  ∧ trace w' = (trace w ++ [EvRequest (lookup_request (client w) false)])%list
  ∧ trace (snd (base_path w'))
    = (trace w' ++ [EvRequest (lookup_request (client w') false)])%list.
Proof.
  intros H. destruct (base_path_raises_uncached _ _ _ H) as [H1 H2].
  rewrite H2 in H1. split; [exact H1|]. split.
  - pose proof (base_path_lookup w H2) as Ht. now rewrite H in Ht.
  - now apply base_path_lookup.
Qed.

(** What [get_url] does to the world is what its first reading of
    [base_path] does. *)
Lemma get_url_world path ensure_ascii w :
  snd (get_url path ensure_ascii w) = snd (base_path w).
Proof.
  unfold get_url. destruct (base_path w) as [[v|e] w1] eqn:Hb.
  2:{ now rewrite (bind_raise _ _ _ _ _ Hb). }
  rewrite (bind_ok _ _ _ _ _ Hb). cbn [snd].
  destruct (base_path_returns_cached _ _ _ Hb) as (Hc & _).
  pose proof (base_path_cached _ _ Hc) as Hb2.
  unfold bind at 1.
  destruct (match v with Py.JStr s => negb (String.eqb s "/") | _ => true end).
  - rewrite (bind_ok _ _ _ _ _ Hb2).
    destruct v; cbn; try reflexivity. now destruct ensure_ascii.
  - cbn. now destruct ensure_ascii.
Qed.

(** X13. Building a URL costs at most one request: none when the base path is
    cached, and the one identity lookup when it is not, although the base
    path is read twice. Nothing of the client changes but, possibly, the
    cached base path. *)
Theorem get_url_lookups path ensure_ascii w :
  (∀ v, base_path_cache (client w) = Some v →
        snd (get_url path ensure_ascii w) = w)
  ∧ (base_path_cache (client w) = None →
     trace (snd (get_url path ensure_ascii w))
     = (trace w ++ [EvRequest (lookup_request (client w) false)])%list)
  ∧ set_base_path_cache (base_path_cache (client w))
      (client (snd (get_url path ensure_ascii w)))
    = client w.
Proof.
  rewrite get_url_world. split; [|split].
  - intros v Hc. now rewrite (base_path_cached _ _ Hc).
  - apply base_path_lookup.
  - unfold base_path, bind at 1, get_client.
    destruct (base_path_cache (client w)) as [v|] eqn:Hc.
    + cbn. rewrite <- Hc. now destruct (client w).
    + pose proof (keeps_get_base_path false w) as Hk.
      unfold bind. destruct (get_base_path false w) as [[v|e] w1];
        cbn [snd] in *.
      * cbn. rewrite Hk, <- Hc. now destruct (client w).
      * rewrite Hk, <- Hc. now destruct (client w).
Qed.

End BasePath.

(** ** What the encoded path looks like *)

Section UrlShape.
Context `{E : Env}.

Implicit Types (w : World) (s : string) (c : ascii).

Lemma hex_digit_inj (a b : nat) :
  (a < 16)%nat → (b < 16)%nat → Url.hex_digit a = Url.hex_digit b → a = b.
Proof.
  intros Ha Hb.
  do 16 (destruct a as [|a]; [
    do 16 (destruct b as [|b]; [first [reflexivity | discriminate]|]); lia |]).
  lia.
Qed.

Lemma nat_of_ascii_lt c : (nat_of_ascii c < 256)%nat.
Proof. destruct c as [[] [] [] [] [] [] [] []]; vm_compute; lia. Qed.

Lemma percent_inj c1 c2 : Url.percent c1 = Url.percent c2 → c1 = c2.
Proof.
  unfold Url.percent. cbv zeta.
  pose proof (nat_of_ascii_lt c1) as B1. pose proof (nat_of_ascii_lt c2) as B2.
  pose proof (Nat.div_mod_eq (nat_of_ascii c1) 16) as D1.
  pose proof (Nat.div_mod_eq (nat_of_ascii c2) 16) as D2.
  assert (nat_of_ascii c1 / 16 < 16)%nat as Q1
    by (apply Nat.Div0.div_lt_upper_bound; lia).
  assert (nat_of_ascii c2 / 16 < 16)%nat as Q2
    by (apply Nat.Div0.div_lt_upper_bound; lia).
  assert (nat_of_ascii c1 mod 16 < 16)%nat as R1
    by (apply Nat.mod_upper_bound; lia).
  assert (nat_of_ascii c2 mod 16 < 16)%nat as R2
    by (apply Nat.mod_upper_bound; lia).
  remember (nat_of_ascii c1 / 16)%nat as q1.
  remember (nat_of_ascii c2 / 16)%nat as q2.
  remember (nat_of_ascii c1 mod 16)%nat as r1.
  remember (nat_of_ascii c2 mod 16)%nat as r2.
  intros H. injection H as Hhi Hlo.
  apply hex_digit_inj in Hhi; [|assumption..].
  apply hex_digit_inj in Hlo; [|assumption..].
  rewrite <- (ascii_nat_embedding c1), <- (ascii_nat_embedding c2).
  f_equal. lia.
Qed.

Lemma three_chars_append (a b c a' b' c' : ascii) (t t' : string) :
  String a (String b (String c "")) +:+ t
  = String a' (String b' (String c' "")) +:+ t' →
  String a (String b (String c "")) = String a' (String b' (String c' ""))
  ∧ t = t'.
Proof.
  rewrite !append_cons. intros H. injection H as -> -> -> H.
  split; [reflexivity | exact H].
Qed.

Lemma percent_append_inj c1 c2 (t1 t2 : string) :
  Url.percent c1 +:+ t1 = Url.percent c2 +:+ t2 →
  Url.percent c1 = Url.percent c2 ∧ t1 = t2.
Proof. unfold Url.percent. cbv zeta. apply three_chars_append. Qed.

Lemma hex_digit_safe (n : nat) : Url.always_safe (Url.hex_digit n) = true.
Proof. do 16 (destruct n as [|n]; [reflexivity|]). reflexivity. Qed.

(** [quote] can be undone: two paths with the same encoding are the same
    path, as long as [%] itself is not declared safe. *)
Lemma quote_inj (safe : string) :
  Url.in_string "%" safe = false →
  ∀ s1 s2, Url.quote s1 safe = Url.quote s2 safe → s1 = s2.
Proof.
  intros Hpct.
  assert (∀ c, Url.always_safe c || Url.in_string c safe = true →
               c ≠ "%"%char) as Hsafe.
  { intros c Hc ->. rewrite Hpct in Hc. discriminate. }
  induction s1 as [|c1 s1 IH]; intros [|c2 s2] H.
  - reflexivity.
  - exfalso. cbn [Url.quote] in H. unfold Url.quote_byte, Url.percent in H.
    destruct (_ || _); discriminate.
  - exfalso. cbn [Url.quote] in H. unfold Url.quote_byte, Url.percent in H.
    destruct (_ || _); discriminate.
  - cbn [Url.quote] in H. unfold Url.quote_byte in H.
    destruct (Url.always_safe c1 || Url.in_string c1 safe) eqn:H1;
      destruct (Url.always_safe c2 || Url.in_string c2 safe) eqn:H2.
    + rewrite !append_cons in H. injection H as -> H.
      f_equal. now apply IH.
    + exfalso. unfold Url.percent in H. rewrite !append_cons in H.
      injection H as Hc _. now apply (Hsafe c1).
    + exfalso. unfold Url.percent in H. rewrite !append_cons in H.
      injection H as Hc _. now apply (Hsafe c2).
    + apply percent_append_inj in H as [Hp Hq].
      apply percent_inj in Hp as ->. f_equal. now apply IH.
Qed.

Lemma all_chars_append (P : ascii → bool) s1 s2 :
  all_chars P (s1 +:+ s2) = all_chars P s1 && all_chars P s2.
Proof.
  induction s1 as [|c s1 IH]; [reflexivity|].
  rewrite append_cons. cbn [all_chars]. now rewrite IH, andb_assoc.
Qed.

Lemma quote_chars (safe : string) s :
  all_chars (url_char safe) (Url.quote s safe) = true.
Proof.
  induction s as [|c s IH]; [reflexivity|].
  cbn [Url.quote]. rewrite all_chars_append, IH, andb_true_r.
  unfold Url.quote_byte.
  destruct (Url.always_safe c || Url.in_string c safe) eqn:Hc.
  - cbn [all_chars]. unfold url_char. now rewrite Hc.
  - unfold Url.percent. cbv zeta. cbn [all_chars]. unfold url_char.
    rewrite !hex_digit_safe. cbn [orb andb].
    now rewrite orb_true_r.
Qed.

Lemma translate_chars s : all_chars plain_char (Url.translate s) = true.
Proof.
  induction s as [|c s IH]; [reflexivity|].
  cbn [Url.translate]. rewrite all_chars_append, IH, andb_true_r.
  unfold Url.translate_char.
  destruct (Ascii.eqb c "#") eqn:H1; [reflexivity|].
  destruct (Ascii.eqb c "?") eqn:H2; [reflexivity|].
  cbn [all_chars]. unfold plain_char. now rewrite H1, H2.
Qed.

Lemma append_inj_l (p s1 s2 : string) : p +:+ s1 = p +:+ s2 → s1 = s2.
Proof.
  induction p as [|c p IH]; [trivial|].
  rewrite !append_cons. intros H. injection H as H. now apply IH.
Qed.

(** X14. With [ensure_ascii] set, the URL determines the path: for one and the
    same client, two paths with the same URL are the same path. *)
Theorem get_url_injective path1 path2 w b :
  base_path_cache (client w) = Some (Py.JStr b) →
  fst (get_url path1 true w) = fst (get_url path2 true w) →
  path1 = path2.
Proof.
  intros Hc H. pose proof (base_path_cached _ _ Hc) as Hb.
  rewrite !(get_url_with_base_path _ _ _ _ _ Hb) in H. cbn [fst] in H.
  cbv zeta in H. injection H as H.
  apply append_inj_l, append_inj_l in H.
  apply quote_inj in H; [|reflexivity].
  destruct (String.eqb b "/"); [exact H | now apply append_inj_l in H].
Qed.

(** X15. Without [ensure_ascii] it does not: [%] is passed through, so a [#] in
    a path and the text [%23] in its place give the same URL, and so do
    [?] and [%3F]. *)
Theorem get_url_collision s1 s2 w b :
  base_path_cache (client w) = Some (Py.JStr b) →
  get_url (s1 +:+ "#" +:+ s2) false w = get_url (s1 +:+ "%23" +:+ s2) false w
  ∧ get_url (s1 +:+ "?" +:+ s2) false w = get_url (s1 +:+ "%3F" +:+ s2) false w
  ∧ s1 +:+ "#" +:+ s2 ≠ s1 +:+ "%23" +:+ s2
  ∧ s1 +:+ "?" +:+ s2 ≠ s1 +:+ "%3F" +:+ s2.
Proof.
  intros Hc. pose proof (base_path_cached _ _ Hc) as Hb.
  rewrite !(get_url_with_base_path _ _ _ _ _ Hb). cbv zeta.
  split; [|split; [|split]].
  - destruct (String.eqb b "/"); now rewrite !translate_append.
  - destruct (String.eqb b "/"); now rewrite !translate_append.
  - intros H. apply append_inj_l in H. discriminate.
  - intros H. apply append_inj_l in H. discriminate.
Qed.

(** X16. The URL is the origin, [/d] and a tail. With [ensure_ascii] the tail
    is made of ASCII letters, digits, [_.-~], the characters of
    [@[]:/!$&'()*+,;=] and [%] only; without it, the tail holds no [#] and
    no [?], so the URL has neither a query nor a fragment. *)
Theorem get_url_shape path ensure_ascii w b :
  base_path_cache (client w) = Some (Py.JStr b) →
  ∃ tail,
    get_url path ensure_ascii w = (Ok (origin (client w) +:+ "/d" +:+ tail), w)
    ∧ (ensure_ascii = true → all_chars (url_char Url.get_url_safe) tail = true)
    ∧ (ensure_ascii = false → all_chars plain_char tail = true).
Proof.
  intros Hc. pose proof (base_path_cached _ _ Hc) as Hb.
  rewrite (get_url_with_base_path _ _ _ _ _ Hb). cbv zeta.
  eexists. split; [reflexivity|]. split; intros ->.
  - apply quote_chars.
  - apply translate_chars.
Qed.

End UrlShape.

(** ** Ranged requests *)

Section RangedRequests.
Context `{E : Env}.

Implicit Types (w : World) (kw : Kwargs).

(** X17. [read_bytes_range] makes exactly one request, for whatever range text
    it is given, and returns what the request returns. The request carries
    [Range: bytes=<range>] and [Accept-Encoding: identity] whatever the
    caller passed under those two names, keeps every other header of the
    caller, and asks for the raw body unless the caller chose a [parse]. *)
Theorem read_bytes_range_request url range async_ kw w :
  read_bytes_range url range async_ kw w
  = (httpx_request (trace w) (data_request (client w) url async_ kw range),
     after w [EvRequest (data_request (client w) url async_ kw range)])
  ∧ (∃ h, rq_headers (data_request (client w) url async_ kw range) = Some h
          ∧ h !! "Range" = Some ("bytes=" +:+ range)
          ∧ h !! "Accept-Encoding" = Some "identity"
          ∧ ∀ given name,
              kw_headers kw = Some given →
              name ≠ "Range" → name ≠ "Accept-Encoding" →
              h !! name = given !! name)
  ∧ rq_parse (data_request (client w) url async_ kw range)
    = default ParseFalse (kw_parse kw)
  ∧ rq_method (data_request (client w) url async_ kw range)
    = default "POST" (kw_method kw).
Proof.
  split; [apply read_bytes_range_sends|]. split; [|now split].
  exists (range_headers kw range).
  destruct (range_headers_lookup kw range) as [H1 H2].
  repeat split; try assumption.
  intros given name. apply range_headers_keeps.
Qed.

(** X18. A block of [size > 0] bytes at an [offset >= 0] is fetched with one
    request for the inclusive range [{offset}-{offset+size-1}], and no
    probe. *)
Theorem read_block_range url (size offset : Z) async_ kw w :
  (0 < size)%Z → (0 ≤ offset)%Z →
  read_block url size offset async_ kw w
  = (httpx_request (trace w)
       (data_request (client w) url async_ kw
          (Py.fmt_int offset +:+ "-" +:+ Py.fmt_int (offset + size - 1))),
     after w
       [EvRequest
          (data_request (client w) url async_ kw
             (Py.fmt_int offset +:+ "-" +:+ Py.fmt_int (offset + size - 1)))]).
Proof.
  intros Hs Ho. unfold read_block.
  replace (size <=? 0)%Z with false by (symmetry; now apply Z.leb_gt).
  unfold read_bytes, read_bytes_in.
  erewrite bind_ok by (apply get_bytes_range_in_direct; lia).
  replace (offset >=? offset + size)%Z with false
    by (symmetry; rewrite Z.geb_leb; apply Z.leb_gt; lia).
  rewrite fmt_range_truthy. cbn [negb]. apply read_bytes_range_sends.
Qed.

End RangedRequests.

(** ** Comparison of clients and the shape of the validator's outcomes *)

Section Comparison.

Implicit Types (a b c : Client).

(** X20. Two clients are equal when they have the same origin and the same user
    name, and only then: equality is an equivalence, and it does not look
    at the password, the one-time code, the headers (so not at the token)
    or the cached base path. *)
Theorem eq_equivalence a b c :
  (eq_ a b = true ↔ origin a = origin b ∧ username a = username b)
  ∧ eq_ a a = true
  ∧ eq_ a b = eq_ b a
  ∧ (eq_ a b = true → eq_ b c = true → eq_ a c = true)
  ∧ (∀ pw otp h bp,
       eq_ a (set_base_path_cache bp
                (set_headers h (set_otp_code otp (set_password pw b))))
       = eq_ a b).
Proof.
  assert (eq_ a b = true ↔ origin a = origin b ∧ username a = username b)
    as Hiff.
  { unfold eq_. rewrite andb_true_iff, !String.eqb_eq. reflexivity. }
  split; [exact Hiff|]. split; [|split; [|split]].
  - unfold eq_. now rewrite !String.eqb_refl.
  - unfold eq_. now rewrite (String.eqb_sym (origin a)),
                            (String.eqb_sym (username a)).
  - unfold eq_. rewrite !andb_true_iff, !String.eqb_eq.
    intros [-> ->] [-> ->]. now split.
  - reflexivity.
Qed.

(** X21. The validator has seven outcomes and no other: the envelope itself,
    or one of six errors, each an [OSError] of a fixed class and number
    that carries the envelope it was given. Which one it is depends on the
    code and the message alone, never on the data. *)
Theorem check_code_outcomes (resp : Envelope) :
  (check_code resp = Ok resp
   ∨ ∃ cls errno,
       check_code resp = Raise (OSError cls errno (ArgEnvelope resp))
       ∧ In (cls, errno)
            [(PermissionError, Py.EACCES); (FileNotFoundError, Py.ENOENT);
             (NotADirectoryError, Py.ENOTDIR); (FileExistsError, Py.EEXIST);
             (PermissionError, Py.EPERM); (OSError_, Py.EIO)])
  ∧ (∀ d, match check_code resp,
                check_code {| code := code resp; message := message resp;
                              data := d |} with
          | Ok _, Ok _ => True
          | Raise (OSError cls errno _), Raise (OSError cls' errno' _) =>
              cls = cls' ∧ errno = errno'
          | _, _ => False
          end).
Proof.
  split.
  - unfold check_code. cbv zeta.
    repeat match goal with
           | |- context [if ?b then _ else _] => destruct b
           end;
      first [ now left
            | right; eexists; eexists; split;
              [reflexivity | cbn; intuition congruence] ].
  - intros d. unfold check_code. cbv zeta. cbn [code message].
    repeat match goal with
           | |- context [if ?b then _ else _] => destruct b
           end; auto.
Qed.

End Comparison.

(** ** The further properties at work on the test doubles *)

Lemma request_url_completion_demo :
  build_request Demo.alice "api/me" "GET" None false no_kwargs
  = build_request Demo.alice "/api/me" "GET" None false no_kwargs
  ∧ rq_url (build_request Demo.alice "api/me" "GET" None false no_kwargs)
    = "http://localhost:5244/api/me".
Proof.
  apply (proj1 (request_url_completion Demo.alice "api/me" "GET" None false
                  no_kwargs)); reflexivity.
Defined.

Lemma fixed_method_endpoints_demo :
  ∃ msg, @auth_me Demo.env false Demo2.with_headers (Demo.world Demo.alice)
         = (Raise (TypeError msg), Demo.world Demo.alice)
         ∧ @public_settings Demo.env false Demo2.with_headers
             (Demo.world Demo.alice)
           = (Raise (TypeError msg), Demo.world Demo.alice)
         ∧ @public_ping Demo.env false Demo2.with_headers
             (Demo.world Demo.alice)
           = (Raise (TypeError msg), Demo.world Demo.alice).
Proof.
  apply (proj2 (@fixed_method_endpoints Demo.env false Demo2.with_headers
                  (Demo.world Demo.alice))).
  discriminate.
Defined.

Lemma login_sends_one_request_demo :
  trace (snd (@login Demo.env "" "wrong" (Py.SStr "") true false no_kwargs
                (Demo.world Demo.alice)))
  = [EvRequest (@login_request Demo.env
                  (with_credentials "" "wrong" (Py.SStr "") Demo.alice)
                  true false no_kwargs)].
Proof.
  apply (@login_sends_one_request Demo.env "" "wrong" (Py.SStr "") true false
           no_kwargs (Demo.world Demo.alice)).
  reflexivity.
Defined.


Lemma login_failures_demo :
  fst (@login Demo.env "" "wrong" (Py.SStr "") true false no_kwargs
         (Demo.world Demo.alice))
  = Raise (OSError OSError_ Py.EINVAL (ArgEnvelope Demo.rejected))
  ∧ fst (@login Demo2.down "" "secret" (Py.SStr "") true false no_kwargs
           (Demo.world Demo.alice))
    = Raise (TransportError "connection refused").
Proof.
  split.
  - rewrite (proj1 (@login_failures Demo.env "" "wrong" (Py.SStr "") true
                      false no_kwargs (Demo.world Demo.alice) eq_refl)
               Demo.rejected eq_refl); [reflexivity | simpl; lia].
  - rewrite (proj1 (proj2 (@login_failures Demo2.down "" "secret" (Py.SStr "")
                             true false no_kwargs (Demo.world Demo.alice)
                             eq_refl))
               (TransportError "connection refused") eq_refl).
    reflexivity.
Defined.


Lemma assigned_username_is_used_demo :
  trace (snd (@login Demo.env "" "" (Py.SStr "") true false no_kwargs
                (snd (@setattr Demo.env "username" (Py.SStr "bob")
                        (Demo.world Demo.alice)))))
  = [EvRequest (@login_request Demo.env (set_username "bob" Demo.alice)
                  true false no_kwargs)].
Proof.
  apply (@assigned_username_is_used Demo.env (Py.SStr "bob") true false
           no_kwargs (Demo.world Demo.alice)).
  reflexivity.
Defined.

Lemma otp_code_forms_demo :
  ns_otp_code (client (snd (@login Demo.env "" "" (Py.SInt 123456) true false
                              no_kwargs (Demo.world Demo.alice))))
  = Py.SInt 123456
  ∧ ns_otp_code (client (snd (@setattr Demo.env "otp_code" (Py.SInt 123456)
                                (Demo.world Demo.alice))))
    = Py.SStr "123456".
Proof.
  split.
  - apply (proj1 (@otp_code_forms Demo.env "" "" 123456 true false no_kwargs
                    (Demo.world Demo.alice))).
    discriminate.
  - apply (proj2 (proj2 (@otp_code_forms Demo.env "" "" 123456 true false
                           no_kwargs (Demo.world Demo.alice)))).
Defined.

Lemma init_logs_in_demo :
  @init Demo.env (λ s, s) "http://localhost:5244" "" "" (Py.SStr "") []
  = (Ok tt,
     {| client := {| origin := "http://localhost:5244"; username := "";
                     password := ""; otp_code := Py.SStr "";
                     headers := default_headers;
                     base_path_cache := None |};
        trace := [] |})
  ∧ fst (@init Demo.env (λ s, s) "http://localhost:5244" "alice" "wrong"
           (Py.SStr "") [])
    = Raise (OSError OSError_ Py.EINVAL (ArgEnvelope Demo.rejected)).
Proof.
  split.
  - apply (proj1 (@init_logs_in Demo.env (λ s, s) "http://localhost:5244" ""
                    "" (Py.SStr "") [])).
    reflexivity.
  - apply (proj2 (@init_logs_in Demo.env (λ s, s) "http://localhost:5244"
                    "alice" "wrong" (Py.SStr "") []) eq_refl).
    + reflexivity.
    + simpl. lia.
Defined.

(** An identity endpoint that answers with code 500 and a base path: the
    base path is taken and cached. *)
Lemma identity_lookup_unvalidated_demo :
  fst (@base_path Demo2.env (Demo.world Demo2.fresh)) = Ok (Py.JStr "/srv")
  ∧ base_path_cache
      (client (snd (@base_path Demo2.env (Demo.world Demo2.fresh))))
    = Some (Py.JStr "/srv").
Proof.
  apply (proj2 (@identity_lookup_unvalidated Demo2.env false
                  (Demo.world Demo2.fresh) Demo2.odd_identity eq_refl));
    reflexivity.
Defined.

Lemma failed_lookup_is_retried_demo :
  base_path_cache
    (client (snd (@base_path Demo2.down (Demo.world Demo2.fresh))))
  = None
  ∧ length (trace (snd (@base_path Demo2.down
                          (snd (@base_path Demo2.down
                                  (Demo.world Demo2.fresh))))))
    = 2%nat.
Proof.
  destruct (@failed_lookup_is_retried Demo2.down (Demo.world Demo2.fresh)
              (TransportError "connection refused")
              (snd (@base_path Demo2.down (Demo.world Demo2.fresh)))
              eq_refl) as (H1 & H2 & H3).
  split; [exact H1|]. rewrite H3, H2. reflexivity.
Defined.

Lemma get_url_lookups_demo :
  snd (@get_url Demo.env "/a.txt" true (Demo.world Demo.alice))
  = Demo.world Demo.alice
  ∧ trace (snd (@get_url Demo.env "/a.txt" true (Demo.world Demo2.fresh)))
    = [EvRequest (lookup_request Demo2.fresh false)].
Proof.
  split.
  - apply (proj1 (@get_url_lookups Demo.env "/a.txt" true
                    (Demo.world Demo.alice)) (Py.JStr "/home")).
    reflexivity.
  - apply (proj1 (proj2 (@get_url_lookups Demo.env "/a.txt" true
                           (Demo.world Demo2.fresh)))).
    reflexivity.
Defined.

(** With [ensure_ascii], the two paths that collide without it are told
    apart. *)
Lemma get_url_injective_demo :
  fst (@get_url Demo.env "/a#b" true (Demo.world Demo.alice))
  ≠ fst (@get_url Demo.env "/a%23b" true (Demo.world Demo.alice))
  ∧ "/a b" = "/a b".
Proof.
  split.
  - intros H.
    apply (@get_url_injective Demo.env "/a#b" "/a%23b" (Demo.world Demo.alice)
             "/home" eq_refl) in H.
    discriminate H.
  - apply (@get_url_injective Demo.env "/a b" "/a b" (Demo.world Demo.alice)
             "/home" eq_refl eq_refl).
Defined.

Lemma get_url_collision_demo :
  @get_url Demo.env "/a#b" false (Demo.world Demo.alice)
  = @get_url Demo.env "/a%23b" false (Demo.world Demo.alice).
Proof.
  apply (@get_url_collision Demo.env "/a" "b" (Demo.world Demo.alice) "/home").
  reflexivity.
Defined.

Lemma get_url_shape_demo :
  ∃ tail,
    @get_url Demo.env "/naïve file?.txt" true (Demo.world Demo.alice)
    = (Ok (origin Demo.alice +:+ "/d" +:+ tail), Demo.world Demo.alice)
    ∧ all_chars (url_char Url.get_url_safe) tail = true.
Proof.
  destruct (@get_url_shape Demo.env "/naïve file?.txt" true
              (Demo.world Demo.alice) "/home" eq_refl)
    as (tail & H1 & H2 & _).
  exists tail. split; [exact H1 | exact (H2 eq_refl)].
Defined.

(** The caller's [User-Agent] is kept, the caller's [Range] is replaced. *)
Lemma read_bytes_range_request_demo :
  ∃ h, rq_headers (data_request Demo.alice Demo.file_url false
                     Demo2.with_headers "100-199") = Some h
       ∧ h !! "Range" = Some "bytes=100-199"
       ∧ h !! "User-Agent" = Some "curl/8".
Proof.
  destruct (proj1 (proj2 (@read_bytes_range_request Demo.env Demo.file_url
                            "100-199" false Demo2.with_headers
                            (Demo.world Demo.alice))))
    as (h & Hh & Hr & _ & Hk).
  exists h. split; [exact Hh|]. split; [exact Hr|].
  rewrite (Hk _ "User-Agent" eq_refl) by discriminate. reflexivity.
Defined.

Lemma read_block_range_demo :
  @read_block Demo.env Demo.file_url 4 10 false no_kwargs
    (Demo.world Demo.alice)
  = (Ok (VBytes "0123456789"),
     after (Demo.world Demo.alice)
       [EvRequest (data_request Demo.alice Demo.file_url false no_kwargs
                     "10-13")]).
Proof.
  rewrite (@read_block_range Demo.env Demo.file_url 4 10 false no_kwargs
             (Demo.world Demo.alice)) by lia.
  reflexivity.
Defined.

(** The default call, [read_bytes(url)]. *)
Lemma read_bytes_open_ended_demo :
  @read_bytes Demo.env Demo.file_url 0 None false no_kwargs
    (Demo.world Demo.alice)
  = (Raise (TypeError "'>=' not supported between instances of 'int' and 'NoneType'"),
     Demo.world Demo.alice).
Proof.
  apply (@read_bytes_open_ended Demo.env Demo.file_url 0 false no_kwargs
           (Demo.world Demo.alice)).
  lia.
Defined.

(** The same user on the same server, with another password and token. *)
Lemma eq_equivalence_demo :
  eq_ Demo.alice
    (set_headers ∅ (set_password "other" Demo.alice)) = true
  ∧ eq_ Demo.alice Demo.admin = false.
Proof.
  split.
  - apply (proj1 (eq_equivalence Demo.alice
                    (set_headers ∅ (set_password "other" Demo.alice))
                    Demo.alice)).
    split; reflexivity.
  - reflexivity.
Defined.
